(** * The LoRaWAN frame header codec of fhdr.go

    A shallow embedding of [DevAddr], [FCtrl] and [FHDR] with their
    [MarshalBinary] / [UnmarshalBinary] methods, and the properties of the
    header codec.

    Conventions.
    - Go's [uint8], [uint16] and [uint32] values are integers of [Z]; every
      conversion that truncates in Go is written out with [uint8].
    - [[]byte] is [list byte].
    - A Go [error] is the message given to [errors.New]; a method returning
      [([]byte, error)] returns a pair whose second component is
      [None] for [nil].
    - A method with a pointer receiver takes the receiver and returns its
      final value next to the error. *)

From Stdlib Require Import String ZArith List Bool Lia Arith.
From Equations Require Import Equations.
Import ListNotations.

Local Open Scope Z_scope.

(** ** Machine integers, bytes and slices *)

Definition byte := Z.
Definition error := string.

(** [errors.New(msg)]: a non-nil error. *)
Definition errors_New (msg : string) : option error := Some msg.

Definition uint8 (x : Z) : Z := x mod 2 ^ 8.

(** [l[lo:hi]] *)
Definition slice {A} (l : list A) (lo hi : nat) : list A :=
  firstn (hi - lo) (skipn lo l).

(** [l[i] = x]; the source only stores inside the slice's length. *)
Fixpoint store {A} (l : list A) (i : nat) (x : A) : list A :=
  match l, i with
  | [], _ => []
  | _ :: t, O => x :: t
  | y :: t, S j => y :: store t j x
  end.

(** Writing through the subslice [l[lo:hi]], which shares [l]'s array:
    afterwards [l] holds [new] at positions [lo..hi). *)
Definition store_slice {A} (l : list A) (lo hi : nat) (new : list A) : list A :=
  firstn lo l ++ new ++ skipn hi l.

(** [encoding/binary]'s little-endian byte order. *)
Module LittleEndian.

Definition PutUint16 (b : list byte) (v : Z) : list byte :=
  store (store b 0 (uint8 v)) 1 (uint8 (Z.shiftr v 8)).

Definition PutUint32 (b : list byte) (v : Z) : list byte :=
  store (store (store (store b 0 (uint8 v))
                      1 (uint8 (Z.shiftr v 8)))
               2 (uint8 (Z.shiftr v 16)))
        3 (uint8 (Z.shiftr v 24)).

Definition Uint16 (b : list byte) : Z :=
  Z.lor (nth 0 b 0) (Z.shiftl (nth 1 b 0) 8).

Definition Uint32 (b : list byte) : Z :=
  Z.lor (Z.lor (Z.lor (nth 0 b 0) (Z.shiftl (nth 1 b 0) 8))
               (Z.shiftl (nth 2 b 0) 16))
        (Z.shiftl (nth 3 b 0) 24).

End LittleEndian.

(** [make([]byte, n)] *)
Definition make (n : nat) : list byte := repeat 0 n.

(** ** DevAddr *)

Module DevAddr.

(** [type DevAddr uint32] *)
Definition t := Z.

Definition MarshalBinary (a : t) : list byte * option error :=
  let b := make 4 in
  let b := LittleEndian.PutUint32 b a in
  (b, None).

Definition UnmarshalBinary (a : t) (data : list byte) : t * option error :=
  if negb (length data =? 4)%nat then
    (a, errors_New "lorawan: 4 bytes of data are expected")
  else
    (LittleEndian.Uint32 data, None).

End DevAddr.

(** ** FCtrl *)

Module FCtrl.

Record t := mk {
  ADR : bool;
  ADRACKReq : bool;
  ACK : bool;
  FPending : bool;
  fOptsLen : Z
}.

Definition with_fOptsLen (c : t) (n : Z) : t :=
  mk (ADR c) (ADRACKReq c) (ACK c) (FPending c) n.

Definition MarshalBinary (c : t) : list byte * option error :=
  if 15 <? fOptsLen c then
    ([], errors_New "lorawan: max value of FOptsLen is 15")
  else
    let b := fOptsLen c in
    let b := if FPending c then Z.lxor b (Z.shiftl 1 4) else b in
    let b := if ACK c then Z.lxor b (Z.shiftl 1 5) else b in
    let b := if ADRACKReq c then Z.lxor b (Z.shiftl 1 6) else b in
    let b := if ADR c then Z.lxor b (Z.shiftl 1 7) else b in
    ([b], None).

Definition UnmarshalBinary (c : t) (data : list byte) : t * option error :=
  if negb (length data =? 1)%nat then
    (c, errors_New "lorawan: 1 byte of data is expected")
  else
    let d := nth 0 data 0 in
    let len := Z.land d (Z.lxor (Z.lxor (Z.lxor (Z.shiftl 1 3) (Z.shiftl 1 2))
                                        (Z.shiftl 1 1)) (Z.shiftl 1 0)) in
    let fp := Z.land d (Z.shiftl 1 4) >? 0 in
    let ack := Z.land d (Z.shiftl 1 5) >? 0 in
    let req := Z.land d (Z.shiftl 1 6) >? 0 in
    let adr := Z.land d (Z.shiftl 1 7) >? 0 in
    (mk adr req ack fp len, None).

(** The options length held by a flags byte: its low four bits. *)
Definition optionsLength (b : byte) : Z := Z.land b 15.

End FCtrl.

(** ** MACCommand, as far as fhdr.go sees it

    The header code reads and writes the field [uplink] of a command and
    calls its two codec methods.  The other fields of the struct ([CID],
    [Payload]) and the methods are declared with the MAC commands, not in
    fhdr.go: they are the [body] of a command and the members of the
    interface [Commands]. *)

Module MACCommand.

Record t (B : Type) := mk { uplink : bool; body : B }.
Arguments mk {B} _ _.
Arguments uplink {B} _.
Arguments body {B} _.

(** [m.uplink = u] *)
Definition with_uplink {B} (m : t B) (u : bool) : t B := mk u (body m).

End MACCommand.

(** What fhdr.go uses and does not declare: the command identifiers named in
    the length switch (type [cid], a byte), the zero value of a command's
    body (for the literal [MACCommand{uplink: h.uplink}]) and the two
    methods of [MACCommand]. *)
Class Commands := {
  Body : Type;
  zero : Body;
  MACCommand_MarshalBinary : MACCommand.t Body -> list byte * option error;
  MACCommand_UnmarshalBinary :
    MACCommand.t Body -> list byte -> MACCommand.t Body * option error;
  LinkCheckAns : byte;
  LinkADRReq : byte;
  LinkADRAns : byte;
  DutyCycleReq : byte;
  RXParamSetupReq : byte;
  RXParamSetupAns : byte;
  DevStatusAns : byte;
  NewChannelReq : byte;
  NewChannelAns : byte;
  RXTimingSetupReq : byte
}.

Definition inspect {A} (a : A) : {b : A | a = b} := exist _ a eq_refl.

(** ** FHDR *)

Module FHDR.
Section WithCommands.

Context {cmds : Commands}.

Record t := mk {
  DevAddr : DevAddr.t;
  FCtrl : FCtrl.t;
  Fcnt : Z;
  FOpts : list (MACCommand.t Body);
  uplink : bool
}.

Definition with_DevAddr (h : t) (a : DevAddr.t) : t :=
  mk a (FCtrl h) (Fcnt h) (FOpts h) (uplink h).
Definition with_FCtrl (h : t) (c : FCtrl.t) : t :=
  mk (DevAddr h) c (Fcnt h) (FOpts h) (uplink h).
Definition with_Fcnt (h : t) (n : Z) : t :=
  mk (DevAddr h) (FCtrl h) n (FOpts h) (uplink h).
Definition with_FOpts (h : t) (l : list (MACCommand.t Body)) : t :=
  mk (DevAddr h) (FCtrl h) (Fcnt h) l (uplink h).

(** The [for _, mac := range h.FOpts] loop of [MarshalBinary]: [mac] is a
    copy of the element, [opts] the bytes appended so far. *)
Fixpoint range_FOpts (up : bool) (macs : list (MACCommand.t Body))
         (opts : list byte) : list byte * option error :=
  match macs with
  | [] => (opts, None)
  | mac :: macs' =>
      let mac := MACCommand.with_uplink mac up in
      match MACCommand_MarshalBinary mac with
      | (_, Some err) => ([], Some err)
      | (b, None) => range_FOpts up macs' (opts ++ b)
      end
  end.

(** The body of [func (h FHDR) MarshalBinary]: from the receiver copy [h]
    to its final value and the returned pair. *)
Definition MarshalBinary_body (h : t) : t * (list byte * option error) :=
  match range_FOpts (uplink h) (FOpts h) [] with
  | (_, Some err) => (h, ([], Some err))
  | (opts, None) =>
      let h := with_FCtrl h
                 (FCtrl.with_fOptsLen (FCtrl h) (uint8 (Z.of_nat (length opts)))) in
      if 15 <? FCtrl.fOptsLen (FCtrl h) then
        (h, ([], errors_New "lorawan: max number of FOpts bytes is 15"))
      else
        let out := [] in
        match DevAddr.MarshalBinary (DevAddr h) with
        | (_, Some err) => (h, ([], Some err))
        | (b, None) =>
            let out := out ++ b in
            match FCtrl.MarshalBinary (FCtrl h) with
            | (_, Some err) => (h, ([], Some err))
            | (b, None) =>
                let out := out ++ b in
                let out := out ++ [0; 0] in
                let out :=
                  store_slice out 5 7
                    (LittleEndian.PutUint16 (slice out 5 7) (Fcnt h)) in
                let out := out ++ opts in
                (h, (out, None))
            end
        end
  end.

(** The payload length chosen by the switch of [UnmarshalBinary] for the
    identifier [c] under direction [up]. *)
Definition pLen (up : bool) (c : byte) : nat :=
  if negb up && (c =? LinkCheckAns) then 2
  else if negb up && (c =? LinkADRReq) then 4
  else if up && (c =? LinkADRAns) then 1
  else if negb up && (c =? DutyCycleReq) then 1
  else if negb up && (c =? RXParamSetupReq) then 4
  else if up && (c =? RXParamSetupAns) then 1
  else if up && (c =? DevStatusAns) then 2
  else if negb up && (c =? NewChannelReq) then 4
  else if up && (c =? NewChannelAns) then 1
  else if negb up && (c =? RXTimingSetupReq) then 1
  else 0%nat.

(** The [for i := 0; i < len(data[7:]); i++] loop of [UnmarshalBinary],
    entered with the loop variable at [i] and the receiver at [h]. *)
Equations? scan (data : list byte) (h : t) (i : nat) : t * option error
  by wf (length (skipn 7 data) - i)%nat lt :=
  scan data h i with inspect (i <? length (skipn 7 data))%nat := {
    | exist _ false _ := (h, None);
    | exist _ true Hi with pLen (uplink h) (nth (7 + i) data 0) := {
        | p with (length (skipn (7 + i) data) <? p + 1)%nat := {
            | true := (h, errors_New "lorawan: not enough remaining bytes");
            | false
                with MACCommand_UnmarshalBinary
                       (MACCommand.mk (uplink h) zero)
                       (slice data (7 + i) (7 + i + 1 + p)) := {
                | (_, Some err) := (h, Some err);
                | (mc, None) :=
                    scan data (with_FOpts h (FOpts h ++ [mc])) (i + p + 1)
              } } } }.
Proof.
  apply Nat.ltb_lt in Hi. lia.
Qed.

(** [func (h *FHDR) UnmarshalBinary(data []byte) error]: from the value
    behind the receiver to its final value and the returned error. *)
Definition UnmarshalBinary (h : t) (data : list byte) : t * option error :=
  if (length data <? 7)%nat then
    (h, errors_New "lorawan: at least 7 bytes are expected")
  else
    match DevAddr.UnmarshalBinary (DevAddr h) (slice data 0 4) with
    | (a, Some err) => (with_DevAddr h a, Some err)
    | (a, None) =>
        let h := with_DevAddr h a in
        match FCtrl.UnmarshalBinary (FCtrl h) (slice data 4 5) with
        | (c, Some err) => (with_FCtrl h c, Some err)
        | (c, None) =>
            let h := with_FCtrl h c in
            let h := with_Fcnt h (LittleEndian.Uint16 (slice data 5 7)) in
            if (7 <? length data)%nat then scan data h 0 else (h, None)
        end
    end.

(** A call [x.M(...)] of a method with a value receiver, seen from the
    caller's variable [x]: the body runs on a copy of [x], whose final
    value is dropped, and [x] keeps its value. *)
Definition call_value {R} (body : t -> t * R) (x : t) : t * R :=
  let (_, r) := body x in (x, r).

(** [func (h FHDR) MarshalBinary() ([]byte, error)] *)
Definition MarshalBinary (h : t) : list byte * option error :=
  snd (call_value MarshalBinary_body h).

(** *** Vocabulary of the statements *)

(** The serialized command stream of a header: the bytes its commands
    produce under the header's direction (empty when a command fails). *)
Definition stream (h : t) : list byte :=
  fst (range_FOpts (uplink h) (FOpts h) []).

(** The header's commands, each carrying the header's direction. *)
Definition directed (h : t) : list (MACCommand.t Body) :=
  map (fun mac => MACCommand.with_uplink mac (uplink h)) (FOpts h).

(** The header as the 7-byte prefix of [data] sets it: address, flags
    byte and counter are overwritten, commands and direction kept. *)
Definition prefixed (h : t) (data : list byte) : t :=
  mk (LittleEndian.Uint32 (slice data 0 4))
     (fst (FCtrl.UnmarshalBinary (FCtrl h) (slice data 4 5)))
     (LittleEndian.Uint16 (slice data 5 7))
     (FOpts h) (uplink h).

(** The entries of the length switch, in the order of its cases:
    direction ([true] for uplink), identifier, payload length. *)
Definition table : list (bool * byte * nat) :=
  [ (false, LinkCheckAns, 2%nat);
    (false, LinkADRReq, 4%nat);
    (true, LinkADRAns, 1%nat);
    (false, DutyCycleReq, 1%nat);
    (false, RXParamSetupReq, 4%nat);
    (true, RXParamSetupAns, 1%nat);
    (true, DevStatusAns, 2%nat);
    (false, NewChannelReq, 4%nat);
    (true, NewChannelAns, 1%nat);
    (false, RXTimingSetupReq, 1%nat) ].

Definition in_table (up : bool) (c : byte) : Prop :=
  exists n, In (up, c, n) table.

(** A well-formed command stream for direction [up], with the commands it
    holds: each command is an identifier followed by exactly the payload
    length of the switch, and the command decoder accepts that slice for a
    command created with direction [up]. *)
Inductive decodes (up : bool) : list byte -> list (MACCommand.t Body) -> Prop :=
| decodes_nil : decodes up [] []
| decodes_cons c p mc rest mcs :
    length p = pLen up c ->
    MACCommand_UnmarshalBinary (MACCommand.mk up zero) (c :: p) = (mc, None) ->
    decodes up rest mcs ->
    decodes up (c :: p ++ rest) (mc :: mcs).

(** A command that fits the length switch under direction [up]: with that
    direction it serializes to its identifier and a payload of the length
    the switch expects, and the command decoder turns these bytes back
    into the command. *)
Definition fits (up : bool) (mac : MACCommand.t Body) : Prop :=
  exists c p,
    MACCommand_MarshalBinary (MACCommand.with_uplink mac up) = (c :: p, None)
    /\ length p = pLen up c
    /\ MACCommand_UnmarshalBinary (MACCommand.mk up zero) (c :: p)
       = (MACCommand.with_uplink mac up, None).


End WithCommands.
End FHDR.

(** ** The header in memory: commands behind a shared slice

    [FOpts] is a slice: the struct holds a slice header, the commands lie
    in an array that every copy of the struct shares.  A method with a
    value receiver runs on a copy of the struct, so what it assigns to the
    fields of [h] stays in the copy; what it would assign to an element
    [h.FOpts[i]] would land in the shared array and be seen by the caller.
    Here the array is threaded through the body of [MarshalBinary], which
    returns it next to the final receiver copy. *)

Module Shared.
Section WithCommands.

Context {cmds : Commands}.

(** The array behind a slice of commands. *)
Definition array := list (MACCommand.t Body).

(** A slice header: [len] elements from index [off] of the array. *)
Record slice_hdr := Slice { off : nat; len : nat }.

(** The struct [FHDR] as a variable holds it. *)
Record t := mk {
  DevAddr : DevAddr.t;
  FCtrl : FCtrl.t;
  Fcnt : Z;
  FOpts : slice_hdr;
  uplink : bool
}.

Definition with_FCtrl (h : t) (c : FCtrl.t) : t :=
  mk (DevAddr h) c (Fcnt h) (FOpts h) (uplink h).

(** The commands a slice shows, and the header a variable stands for. *)
Definition elements (a : array) (s : slice_hdr) : list (MACCommand.t Body) :=
  firstn (len s) (skipn (off s) a).

Definition value (a : array) (x : t) : FHDR.t :=
  FHDR.mk (DevAddr x) (FCtrl x) (Fcnt x) (elements a (FOpts x)) (uplink x).

(** The [for _, mac := range h.FOpts] loop with [n] turns left, the next on
    index [i] of the array: the element is copied into [mac], and the
    assignment [mac.uplink = h.uplink] goes to that copy.  (A slice lies
    within its array, so the index is always found.) *)
Fixpoint range_FOpts (up : bool) (a : array) (i n : nat) (opts : list byte)
  : array * (list byte * option error) :=
  match n with
  | O => (a, (opts, None))
  | S n' =>
      match nth_error a i with
      | None => (a, (opts, None))
      | Some elt =>
          let mac := elt in
          let mac := MACCommand.with_uplink mac up in
          match MACCommand_MarshalBinary mac with
          | (_, Some err) => (a, ([], Some err))
          | (b, None) => range_FOpts up a (S i) n' (opts ++ b)
          end
      end
  end.

(** The body of [func (h FHDR) MarshalBinary] on the array and the receiver
    copy [h]: the array and the copy as the body leaves them, and the
    returned pair. *)
Definition MarshalBinary_body (a : array) (h : t)
  : array * t * (list byte * option error) :=
  match range_FOpts (uplink h) a (off (FOpts h)) (len (FOpts h)) [] with
  | (a, (_, Some err)) => (a, h, ([], Some err))
  | (a, (opts, None)) =>
      let h := with_FCtrl h
                 (FCtrl.with_fOptsLen (FCtrl h) (uint8 (Z.of_nat (length opts)))) in
      if 15 <? FCtrl.fOptsLen (FCtrl h) then
        (a, h, ([], errors_New "lorawan: max number of FOpts bytes is 15"))
      else
        let out := [] in
        match DevAddr.MarshalBinary (DevAddr h) with
        | (_, Some err) => (a, h, ([], Some err))
        | (b, None) =>
            let out := out ++ b in
            match FCtrl.MarshalBinary (FCtrl h) with
            | (_, Some err) => (a, h, ([], Some err))
            | (b, None) =>
                let out := out ++ b in
                let out := out ++ [0; 0] in
                let out :=
                  store_slice out 5 7
                    (LittleEndian.PutUint16 (slice out 5 7) (Fcnt h)) in
                let out := out ++ opts in
                (a, h, (out, None))
            end
        end
  end.

(** The call [x.MarshalBinary()]: the receiver is a copy of [x]; after the
    call the caller has the array as the body left it and its variable
    [x]; the receiver copy is gone. *)
Definition call_MarshalBinary (a : array) (x : t)
  : array * t * (list byte * option error) :=
  let h := x in
  let '(a', _, r) := MarshalBinary_body a h in
  (a', x, r).

End WithCommands.
End Shared.

(** ** A command collaborator to run the header code on

    The MAC command codec and the identifier constants are not part of
    fhdr.go; the theorems hold for every instance of [Commands].  To run the
    header code on concrete headers, this instance follows the
    specification's description of a command. *)

Module Raw.

(** Modelled from the spec: the fields of a command besides its direction.
    Section 3 describes a command as an identifier byte and opaque payload
    bytes. *)
Record body := mk { CID : byte; Payload : list byte }.

(** Modelled from the spec: [MACCommand.MarshalBinary], missing from the
    sources.  A command is encoded as its identifier byte followed by its
    payload bytes (Sections 3 and 6). *)
Definition MarshalBinary (m : MACCommand.t body) : list byte * option error :=
  (CID (MACCommand.body m) :: Payload (MACCommand.body m), None).

(** Modelled from the spec: [MACCommand.UnmarshalBinary], missing from the
    sources.  A command is decoded from the slice the header hands over:
    the identifier byte, then the payload; the direction was attached by
    the header (Section 4.3). *)
Definition UnmarshalBinary (m : MACCommand.t body) (data : list byte)
  : MACCommand.t body * option error :=
  match data with
  | [] => (m, errors_New "lorawan: at least 1 byte of data is expected")
  | c :: p => (MACCommand.mk (MACCommand.uplink m) (mk c p), None)
  end.

(** Modelled from the spec: the identifier constants, missing from the
    sources.  Identifier 0x02 is the link-check pair (Section 8); the other
    identifiers of the length switch take the protocol's consecutive
    numbering 0x03 to 0x08, a request and its answer sharing one value. *)
#[export] Instance commands : Commands := {|
  Body := body;
  zero := mk 0 [];
  MACCommand_MarshalBinary := MarshalBinary;
  MACCommand_UnmarshalBinary := UnmarshalBinary;
  LinkCheckAns := 2;
  LinkADRReq := 3;
  LinkADRAns := 3;
  DutyCycleReq := 4;
  RXParamSetupReq := 5;
  RXParamSetupAns := 5;
  DevStatusAns := 6;
  NewChannelReq := 7;
  NewChannelAns := 7;
  RXTimingSetupReq := 8
|}.

(** [MACCommand{uplink: up, CID: c, Payload: p}] *)
Definition cmd (up : bool) (c : byte) (p : list byte) : MACCommand.t body :=
  MACCommand.mk up (mk c p).

(** The header code run with these commands. *)
Definition FHDR := FHDR.t (cmds := commands).
Definition header (a : DevAddr.t) (c : FCtrl.t) (n : Z)
           (l : list (MACCommand.t body)) (up : bool) : FHDR :=
  FHDR.mk (cmds := commands) a c n l up.
Definition encode (h : FHDR) : list byte * option error :=
  FHDR.MarshalBinary h.
Definition decode (h : FHDR) (data : list byte) : FHDR * option error :=
  FHDR.UnmarshalBinary h data.

End Raw.

(** ** Headers and inputs the statements are evaluated on *)

Module Examples.

(** [h := FHDR{uplink: up}] *)
Definition blank (up : bool) : Raw.FHDR :=
  Raw.header 0 (FCtrl.mk false false false false 0) 0 [] up.

(** A downlink header with a LinkCheckAns and a LinkADRReq; the first
    command was built with the other direction in its own field. *)
Definition answers : Raw.FHDR :=
  Raw.header 0x01020304 (FCtrl.mk true false true false 9) 5
    [Raw.cmd true 2 [7; 9]; Raw.cmd false 3 [1; 2; 3; 4]] false.

Definition answers_decoded : Raw.FHDR :=
  Raw.header 0x01020304 (FCtrl.mk true false true false 8) 5
    [Raw.cmd false 2 [7; 9]; Raw.cmd false 3 [1; 2; 3; 4]] false.

(** A downlink header whose one command has an identifier outside the
    switch (0x80) and carries one payload byte. *)
Definition unlisted : Raw.FHDR :=
  Raw.header 0x01020304 (FCtrl.mk true false false false 0) 5
    [Raw.cmd false 0x80 [0x02]] false.

Definition unlisted_bytes : list byte :=
  [0x04; 0x03; 0x02; 0x01; 0x82; 0x05; 0x00; 0x80; 0x02].

(** An uplink header with 256 commands of one byte each (LinkCheckReq,
    which has no payload). *)
Definition wide : Raw.FHDR :=
  Raw.header 0 (FCtrl.mk false false false false 0) 0
    (repeat (Raw.cmd true 2 []) 256) true.

(** Downlink input: prefix, a DevStatusReq (0x06, no payload), then a
    LinkCheckAns (0x02) with one of its two payload bytes. *)
Definition cut_short : list byte :=
  [0x04; 0x03; 0x02; 0x01; 0x80; 0x05; 0x00; 0x06; 0x02; 0x01].

Definition cut_short_decoded : Raw.FHDR :=
  Raw.header 0x01020304 (FCtrl.mk true false false false 0) 5
    [Raw.cmd false 6 []] false.

(** Downlink input with a stream of 16 bytes: three LinkADRReq (0x03, four
    payload bytes each) and a DevStatusReq. *)
Definition sixteen : list byte :=
  [0x04; 0x03; 0x02; 0x01; 0x80; 0x05; 0x00;
   0x03; 1; 2; 3; 4;  0x03; 5; 6; 7; 8;  0x03; 9; 10; 11; 12;  0x06].

Definition sixteen_commands : list (MACCommand.t Raw.body) :=
  [Raw.cmd false 3 [1; 2; 3; 4]; Raw.cmd false 3 [5; 6; 7; 8];
   Raw.cmd false 3 [9; 10; 11; 12]; Raw.cmd false 6 []].

(** A downlink header that already holds a command, and an input with
    one LinkCheckAns. *)
Definition reused : Raw.FHDR :=
  Raw.header 7 (FCtrl.mk false false false false 0) 1
    [Raw.cmd false 6 []] false.

Definition one_answer : list byte :=
  [0x04; 0x03; 0x02; 0x01; 0x82; 0x05; 0x00; 0x02; 7; 9].

Definition reused_decoded : Raw.FHDR :=
  Raw.header 0x01020304 (FCtrl.mk true false false false 2) 5
    [Raw.cmd false 6 []; Raw.cmd false 2 [7; 9]] false.

End Examples.

(** ** A command codec that can refuse

    The header code passes on the errors of the command codec.  To run
    these paths on concrete headers, this codec refuses the identifier 0xFF
    in both directions and otherwise works as [Raw]; it is a stand-in, not
    the codec of the package. *)

Module Picky.

Definition unsupported : option error :=
  errors_New "lorawan: unsupported command".

Definition MarshalBinary (m : MACCommand.t Raw.body)
  : list byte * option error :=
  if Raw.CID (MACCommand.body m) =? 0xFF then ([], unsupported)
  else Raw.MarshalBinary m.

Definition UnmarshalBinary (m : MACCommand.t Raw.body) (data : list byte)
  : MACCommand.t Raw.body * option error :=
  if nth 0 data 0 =? 0xFF then (m, unsupported)
  else Raw.UnmarshalBinary m data.

Definition commands : Commands := {|
  Body := Raw.body;
  zero := Raw.mk 0 [];
  MACCommand_MarshalBinary := MarshalBinary;
  MACCommand_UnmarshalBinary := UnmarshalBinary;
  LinkCheckAns := 2;
  LinkADRReq := 3;
  LinkADRAns := 3;
  DutyCycleReq := 4;
  RXParamSetupReq := 5;
  RXParamSetupAns := 5;
  DevStatusAns := 6;
  NewChannelReq := 7;
  NewChannelAns := 7;
  RXTimingSetupReq := 8
|}.

Definition header (a : DevAddr.t) (c : FCtrl.t) (n : Z)
           (l : list (MACCommand.t Raw.body)) (up : bool)
  : FHDR.t (cmds := commands) :=
  FHDR.mk (cmds := commands) a c n l up.

(** An uplink header whose second command the codec refuses. *)
Definition refused : FHDR.t (cmds := commands) :=
  header 1 (FCtrl.mk false false false false 0) 0
    [Raw.cmd true 2 []; Raw.cmd true 0xFF []; Raw.cmd true 6 [1; 2]] true.

(** Uplink input: prefix, a LinkCheckReq, the refused identifier, a
    LinkCheckReq. *)
Definition refused_bytes : list byte :=
  [0x01; 0x00; 0x00; 0x00; 0x03; 0x00; 0x00; 0x02; 0xFF; 0x02].

End Picky.

(** * Properties *)

(** ** Slices *)

Section Slices.

Context {A : Type}.

Lemma skipn_plus (l : list A) (a b : nat) :
  skipn (a + b) l = skipn b (skipn a l).
Proof. rewrite skipn_skipn. f_equal. lia. Qed.

Lemma slice_skipn (l : list A) (lo n : nat) :
  slice l lo (lo + n) = firstn n (skipn lo l).
Proof. unfold slice. f_equal. lia. Qed.

Lemma nth_skipn_head (l : list A) (k : nat) (d x : A) (tl : list A) :
  skipn k l = x :: tl -> nth k l d = x.
Proof.
  intros E. rewrite <- (firstn_skipn k l) at 1. rewrite E.
  assert (length (firstn k l) = k).
  { apply firstn_length_le.
    destruct (Nat.le_gt_cases k (length l)) as [|L]; [assumption|].
    rewrite skipn_all2 in E by lia. discriminate. }
  rewrite app_nth2 by lia. replace (k - length (firstn k l))%nat with 0%nat by lia.
  reflexivity.
Qed.

End Slices.

(** ** The scan loop of [UnmarshalBinary] *)

Section ScanLoop.

Context {cmds : Commands}.

Local Notation "'truncated'" :=
  (errors_New "lorawan: not enough remaining bytes").

(** One turn of the loop, as the source writes it. *)
Lemma scan_eq data h i :
  FHDR.scan data h i =
  if (i <? length (skipn 7 data))%nat then
    let p := FHDR.pLen (FHDR.uplink h) (nth (7 + i) data 0) in
    if (length (skipn (7 + i) data) <? p + 1)%nat then (h, truncated)
    else
      match MACCommand_UnmarshalBinary (MACCommand.mk (FHDR.uplink h) zero)
              (slice data (7 + i) (7 + i + 1 + p)) with
      | (_, Some err) => (h, Some err)
      | (mc, None) =>
          FHDR.scan data (FHDR.with_FOpts h (FHDR.FOpts h ++ [mc])) (i + p + 1)
      end
  else (h, None).
Proof.
  apply (FHDR.scan_elim (fun data h i r => r =
    if (i <? length (skipn 7 data))%nat then
      let p := FHDR.pLen (FHDR.uplink h) (nth (7 + i) data 0) in
      if (length (skipn (7 + i) data) <? p + 1)%nat then (h, truncated)
      else
        match MACCommand_UnmarshalBinary (MACCommand.mk (FHDR.uplink h) zero)
                (slice data (7 + i) (7 + i + 1 + p)) with
        | (_, Some err) => (h, Some err)
        | (mc, None) =>
            FHDR.scan data (FHDR.with_FOpts h (FHDR.FOpts h ++ [mc])) (i + p + 1)
        end
    else (h, None))); clear; intros.
  all: cbv zeta;
    repeat match goal with
      | H : FHDR.pLen _ _ = _ |- _ => rewrite H
      | H : (_ <? _)%nat = _ |- _ => rewrite H
      | H : MACCommand_UnmarshalBinary _ _ = _ |- _ => rewrite H
      end; reflexivity.
Qed.

(** The same turn, read on the bytes that remain at the loop variable:
    [data[7+i:]]. *)
Lemma scan_view data h i :
  FHDR.scan data h i =
  match skipn (7 + i) data with
  | [] => (h, None)
  | c :: tl =>
      let p := FHDR.pLen (FHDR.uplink h) c in
      if (length tl <? p)%nat then (h, truncated)
      else
        match MACCommand_UnmarshalBinary (MACCommand.mk (FHDR.uplink h) zero)
                (c :: firstn p tl) with
        | (_, Some err) => (h, Some err)
        | (mc, None) =>
            FHDR.scan data (FHDR.with_FOpts h (FHDR.FOpts h ++ [mc])) (i + p + 1)
        end
  end.
Proof.
  rewrite scan_eq.
  pose proof (length_skipn (7 + i) data) as L.
  pose proof (length_skipn 7 data) as L7.
  destruct (skipn (7 + i) data) as [|c tl] eqn:E.
  - simpl in L. destruct (Nat.ltb_spec i (length (skipn 7 data))); [lia|reflexivity].
  - simpl in L. destruct (Nat.ltb_spec i (length (skipn 7 data))); [|lia].
    cbv zeta. rewrite (nth_skipn_head _ _ _ _ _ E).
    set (p := FHDR.pLen (FHDR.uplink h) c).
    replace (7 + i + 1 + p)%nat with ((7 + i) + S p)%nat by lia.
    rewrite slice_skipn, E. simpl firstn. simpl length.
    destruct (Nat.ltb_spec (S (length tl)) (p + 1)), (Nat.ltb_spec (length tl) p);
      try lia; reflexivity.
Qed.

Lemma scan_next (data : list byte) i c tl p :
  skipn (7 + i) data = c :: tl ->
  skipn (7 + (i + p + 1)) data = skipn p tl.
Proof.
  intros E. replace (7 + (i + p + 1))%nat with ((7 + i) + S p)%nat by lia.
  rewrite skipn_plus, E. reflexivity.
Qed.

Lemma with_FOpts_same h : FHDR.with_FOpts h (FHDR.FOpts h ++ []) = h.
Proof. destruct h. unfold FHDR.with_FOpts. simpl. rewrite app_nil_r. reflexivity. Qed.

Lemma with_FOpts_snoc h mc mcs :
  FHDR.with_FOpts (FHDR.with_FOpts h (FHDR.FOpts h ++ [mc]))
    (FHDR.FOpts (FHDR.with_FOpts h (FHDR.FOpts h ++ [mc])) ++ mcs)
  = FHDR.with_FOpts h (FHDR.FOpts h ++ mc :: mcs).
Proof. unfold FHDR.with_FOpts. simpl. rewrite <- app_assoc. reflexivity. Qed.

(** A well-formed stream is scanned to the end, whatever its length. *)
Lemma scan_decodes up rest mcs :
  FHDR.decodes up rest mcs ->
  forall data h i,
    FHDR.uplink h = up ->
    skipn (7 + i) data = rest ->
    FHDR.scan data h i = (FHDR.with_FOpts h (FHDR.FOpts h ++ mcs), None).
Proof.
  induction 1 as [|c p mc rest mcs Hp Hmc Hrest IH]; intros data h i Hup E.
  - rewrite scan_view, E, with_FOpts_same. reflexivity.
  - rewrite scan_view, E. cbv zeta. rewrite Hup, <- Hp.
    destruct (Nat.ltb_spec (length (p ++ rest)) (length p)) as [L|_].
    { rewrite length_app in L. lia. }
    rewrite firstn_app, firstn_all, Nat.sub_diag. simpl firstn.
    rewrite app_nil_r, Hmc.
    rewrite (IH data _ (i + length p + 1)%nat).
    + rewrite with_FOpts_snoc. reflexivity.
    + exact Hup.
    + rewrite (scan_next _ _ _ _ _ E), skipn_app, skipn_all, Nat.sub_diag.
      reflexivity.
Qed.

(** A command whose payload is cut short stops the scan with the
    truncation error; the commands before it stay appended. *)
Lemma scan_truncated up good mcs :
  FHDR.decodes up good mcs ->
  forall data h i c p,
    FHDR.uplink h = up ->
    skipn (7 + i) data = good ++ c :: p ->
    (length p < FHDR.pLen up c)%nat ->
    FHDR.scan data h i = (FHDR.with_FOpts h (FHDR.FOpts h ++ mcs), truncated).
Proof.
  induction 1 as [|c0 p0 mc rest mcs Hp Hmc Hrest IH]; intros data h i c p Hup E L.
  - rewrite scan_view, E. simpl app. cbv zeta. rewrite Hup.
    destruct (Nat.ltb_spec (length p) (FHDR.pLen up c)); [|lia].
    rewrite with_FOpts_same. reflexivity.
  - rewrite scan_view, E. simpl app. cbv zeta. rewrite Hup, <- Hp.
    rewrite <- app_assoc.
    destruct (Nat.ltb_spec (length (p0 ++ rest ++ c :: p)) (length p0)) as [L'|_].
    { rewrite length_app in L'. lia. }
    rewrite firstn_app, firstn_all, Nat.sub_diag. simpl firstn.
    rewrite app_nil_r, Hmc.
    rewrite (IH data _ (i + length p0 + 1)%nat c p).
    + rewrite with_FOpts_snoc. reflexivity.
    + exact Hup.
    + simpl in E. rewrite <- app_assoc in E.
      rewrite (scan_next _ _ _ _ _ E), skipn_app, skipn_all, Nat.sub_diag.
      reflexivity.
    + exact L.
Qed.

(** Induction on the bytes that remain. *)
Lemma scan_remaining_ind (P : list byte -> FHDR.t -> nat -> Prop) :
  (forall data h i,
      (forall h' j, (length (skipn (7 + j) data) < length (skipn (7 + i) data))%nat ->
                    P data h' j) ->
      P data h i) ->
  forall data h i, P data h i.
Proof.
  intros step data h i.
  remember (length (skipn (7 + i) data)) as n eqn:En.
  assert (Hn : (length (skipn (7 + i) data) <= n)%nat) by lia. clear En.
  revert h i Hn. induction n as [|n IH]; intros h i Hn.
  - apply step. intros h' j Hj. lia.
  - apply step. intros h' j Hj. apply IH. lia.
Qed.

(** What a scan can do to the header, with or without error: append the
    commands of a well-formed part at the front of the remaining bytes. *)
Lemma scan_frame data h i :
  exists good rest new,
    skipn (7 + i) data = good ++ rest
    /\ FHDR.decodes (FHDR.uplink h) good new
    /\ fst (FHDR.scan data h i) = FHDR.with_FOpts h (FHDR.FOpts h ++ new).
Proof.
  revert data h i. apply (scan_remaining_ind (fun data h i =>
    exists good rest new,
      skipn (7 + i) data = good ++ rest
      /\ FHDR.decodes (FHDR.uplink h) good new
      /\ fst (FHDR.scan data h i) = FHDR.with_FOpts h (FHDR.FOpts h ++ new))).
  intros data h i IH. rewrite scan_view.
  assert (stop : forall e : option error,
    exists good rest new,
      skipn (7 + i) data = good ++ rest
      /\ FHDR.decodes (FHDR.uplink h) good new
      /\ fst (h, e) = FHDR.with_FOpts h (FHDR.FOpts h ++ new)).
  { intros e. exists [], (skipn (7 + i) data), [].
    split; [reflexivity|]. split; [constructor|].
    rewrite with_FOpts_same. reflexivity. }
  destruct (skipn (7 + i) data) as [|c tl] eqn:E; [apply stop|].
  cbv zeta. set (p := FHDR.pLen (FHDR.uplink h) c).
  destruct (Nat.ltb_spec (length tl) p) as [|Lp]; [apply stop|].
  destruct (MACCommand_UnmarshalBinary _ _) as [mc [err|]] eqn:Hmc; [apply stop|].
  destruct (IH (FHDR.with_FOpts h (FHDR.FOpts h ++ [mc])) (i + p + 1)%nat)
    as [good [rest [new [Hs [Hd Hf]]]]].
  { rewrite (scan_next _ _ _ _ _ E), length_skipn. simpl. lia. }
  rewrite (scan_next _ _ _ _ _ E) in Hs.
  exists (c :: firstn p tl ++ good), rest, (mc :: new). split; [|split].
  - simpl. rewrite <- app_assoc, <- Hs, firstn_skipn. reflexivity.
  - constructor.
    + rewrite firstn_length_le by lia. reflexivity.
    + exact Hmc.
    + exact Hd.
  - rewrite Hf, with_FOpts_snoc. reflexivity.
Qed.

(** A scan that ends without error went through a well-formed stream. *)
Lemma scan_complete data h i :
  snd (FHDR.scan data h i) = None ->
  exists mcs,
    FHDR.decodes (FHDR.uplink h) (skipn (7 + i) data) mcs
    /\ fst (FHDR.scan data h i) = FHDR.with_FOpts h (FHDR.FOpts h ++ mcs).
Proof.
  revert data h i. apply (scan_remaining_ind (fun data h i =>
    snd (FHDR.scan data h i) = None ->
    exists mcs,
      FHDR.decodes (FHDR.uplink h) (skipn (7 + i) data) mcs
      /\ fst (FHDR.scan data h i) = FHDR.with_FOpts h (FHDR.FOpts h ++ mcs))).
  intros data h i IH. rewrite scan_view.
  destruct (skipn (7 + i) data) as [|c tl] eqn:E.
  - intros _. exists []. split; [constructor|]. rewrite with_FOpts_same. reflexivity.
  - cbv zeta. set (p := FHDR.pLen (FHDR.uplink h) c).
    destruct (Nat.ltb_spec (length tl) p) as [|Lp]; [discriminate|].
    destruct (MACCommand_UnmarshalBinary _ _) as [mc [err|]] eqn:Hmc; [discriminate|].
    intros Hok.
    destruct (IH (FHDR.with_FOpts h (FHDR.FOpts h ++ [mc])) (i + p + 1)%nat)
      as [mcs [Hd Hf]].
    { rewrite (scan_next _ _ _ _ _ E), length_skipn. simpl. lia. }
    { exact Hok. }
    exists (mc :: mcs). split.
    + rewrite (scan_next _ _ _ _ _ E) in Hd. simpl in Hd.
      rewrite <- (firstn_skipn p tl). constructor.
      * rewrite firstn_length_le by lia. reflexivity.
      * exact Hmc.
      * exact Hd.
    + rewrite Hf, with_FOpts_snoc. reflexivity.
Qed.

(** A scan that ends with an error went through a well-formed part of the
    stream, kept its commands, and stopped on the command right behind it:
    one whose payload is cut short, or one the command decoder refuses. *)
Lemma scan_failure data h i :
  forall err,
    snd (FHDR.scan data h i) = Some err ->
    exists good new c tl,
      skipn (7 + i) data = good ++ c :: tl
      /\ FHDR.decodes (FHDR.uplink h) good new
      /\ fst (FHDR.scan data h i) = FHDR.with_FOpts h (FHDR.FOpts h ++ new)
      /\ (((length tl < FHDR.pLen (FHDR.uplink h) c)%nat
           /\ Some err = truncated)
          \/ ((FHDR.pLen (FHDR.uplink h) c <= length tl)%nat
              /\ exists mc,
                   MACCommand_UnmarshalBinary
                     (MACCommand.mk (FHDR.uplink h) zero)
                     (c :: firstn (FHDR.pLen (FHDR.uplink h) c) tl)
                   = (mc, Some err))).
Proof.
  revert data h i. apply (scan_remaining_ind (fun data h i =>
    forall err,
      snd (FHDR.scan data h i) = Some err ->
      exists good new c tl,
        skipn (7 + i) data = good ++ c :: tl
        /\ FHDR.decodes (FHDR.uplink h) good new
        /\ fst (FHDR.scan data h i) = FHDR.with_FOpts h (FHDR.FOpts h ++ new)
        /\ (((length tl < FHDR.pLen (FHDR.uplink h) c)%nat
             /\ Some err = truncated)
            \/ ((FHDR.pLen (FHDR.uplink h) c <= length tl)%nat
                /\ exists mc,
                     MACCommand_UnmarshalBinary
                       (MACCommand.mk (FHDR.uplink h) zero)
                       (c :: firstn (FHDR.pLen (FHDR.uplink h) c) tl)
                     = (mc, Some err))))).
  intros data h i IH err. rewrite scan_view.
  destruct (skipn (7 + i) data) as [|c tl] eqn:E; [discriminate|].
  cbv zeta. set (p := FHDR.pLen (FHDR.uplink h) c).
  destruct (Nat.ltb_spec (length tl) p) as [Lt|Lp].
  { intros H. simpl in H. exists [], [], c, tl.
    split; [reflexivity|]. split; [constructor|].
    split; [rewrite with_FOpts_same; reflexivity|].
    left. split; [exact Lt|]. symmetry. exact H. }
  destruct (MACCommand_UnmarshalBinary _ _) as [mc [e|]] eqn:Hmc.
  - intros H. simpl in H. injection H as ->. exists [], [], c, tl.
    split; [reflexivity|]. split; [constructor|].
    split; [rewrite with_FOpts_same; reflexivity|].
    right. split; [exact Lp|]. exists mc. exact Hmc.
  - intros H.
    destruct (IH (FHDR.with_FOpts h (FHDR.FOpts h ++ [mc])) (i + p + 1)%nat)
      with (err := err) as [good [new [c' [tl' [Hs [Hd [Hf Hstop]]]]]]].
    { rewrite (scan_next _ _ _ _ _ E), length_skipn. simpl. lia. }
    { exact H. }
    rewrite (scan_next _ _ _ _ _ E) in Hs.
    exists (c :: firstn p tl ++ good), (mc :: new), c', tl'.
    split; [|split; [|split]].
    + simpl. rewrite <- app_assoc, <- Hs, firstn_skipn. reflexivity.
    + constructor.
      * rewrite firstn_length_le by lia. reflexivity.
      * exact Hmc.
      * exact Hd.
    + rewrite Hf, with_FOpts_snoc. reflexivity.
    + exact Hstop.
Qed.

(** The scan sees the header's direction and the bytes that remain, and
    nothing else. *)
Lemma scan_depends data h i :
  forall data' h' i',
    skipn (7 + i) data = skipn (7 + i') data' ->
    FHDR.uplink h = FHDR.uplink h' ->
    exists new e,
      FHDR.scan data h i = (FHDR.with_FOpts h (FHDR.FOpts h ++ new), e)
      /\ FHDR.scan data' h' i' = (FHDR.with_FOpts h' (FHDR.FOpts h' ++ new), e).
Proof.
  revert data h i. apply (scan_remaining_ind (fun data h i =>
    forall data' h' i',
      skipn (7 + i) data = skipn (7 + i') data' ->
      FHDR.uplink h = FHDR.uplink h' ->
      exists new e,
        FHDR.scan data h i = (FHDR.with_FOpts h (FHDR.FOpts h ++ new), e)
        /\ FHDR.scan data' h' i' = (FHDR.with_FOpts h' (FHDR.FOpts h' ++ new), e))).
  intros data h i IH data' h' i' E Hup.
  rewrite (scan_view data h i), (scan_view data' h' i'), <- E, <- Hup.
  assert (stop : forall e : option error,
    exists new e0,
      (h, e) = (FHDR.with_FOpts h (FHDR.FOpts h ++ new), e0)
      /\ (h', e) = (FHDR.with_FOpts h' (FHDR.FOpts h' ++ new), e0)).
  { intros e. exists [], e. rewrite !with_FOpts_same. split; reflexivity. }
  destruct (skipn (7 + i) data) as [|c tl] eqn:Es; [apply stop|].
  cbv zeta. set (p := FHDR.pLen (FHDR.uplink h) c).
  destruct (Nat.ltb_spec (length tl) p) as [|Lp]; [apply stop|].
  destruct (MACCommand_UnmarshalBinary _ _) as [mc [err|]]; [apply stop|].
  destruct (IH (FHDR.with_FOpts h (FHDR.FOpts h ++ [mc])) (i + p + 1)%nat)
    with (data' := data') (h' := FHDR.with_FOpts h' (FHDR.FOpts h' ++ [mc]))
         (i' := (i' + p + 1)%nat) as [new [e [H1 H2]]].
  - rewrite (scan_next _ _ _ _ _ Es), length_skipn. simpl. lia.
  - symmetry in E. rewrite (scan_next _ _ _ _ _ Es), (scan_next _ _ _ _ _ E).
    reflexivity.
  - exact Hup.
  - exists (mc :: new), e. rewrite H1, H2, !with_FOpts_snoc. split; reflexivity.
Qed.

End ScanLoop.

(** ** Little-endian integers and the flags byte *)

Lemma testbit_uint8 x m : Z.testbit (uint8 x) m = (m <? 8) && Z.testbit x m.
Proof.
  unfold uint8. destruct (Z.ltb_spec m 8) as [L|L]; cbn [andb].
  - apply Z.mod_pow2_bits_low. exact L.
  - apply Z.mod_pow2_bits_high. lia.
Qed.

Lemma testbit_beyond a w n : 0 <= a < 2 ^ w -> 0 <= w <= n -> Z.testbit a n = false.
Proof.
  intros Ha Hw. rewrite <- (Z.mod_small a (2 ^ w)) by exact Ha.
  apply Z.mod_pow2_bits_high. exact Hw.
Qed.

Ltac byte_bits n :=
  rewrite ?Z.lor_spec, ?Z.shiftl_spec, ?testbit_uint8 by lia;
  repeat match goal with
    | |- context [(?m <? 8)] =>
        destruct (Z.ltb_spec m 8); try lia; cbn [andb]
    end;
  rewrite ?Z.shiftr_spec by lia;
  rewrite ?orb_false_r, ?orb_false_l;
  try (f_equal; lia).

Ltac below_zero_bits :=
  repeat match goal with
    | |- context [Z.testbit ?x ?m] => rewrite (Z.testbit_neg_r x m) by lia
    end.

Lemma Uint32_PutUint32 a :
  0 <= a < 2 ^ 32 ->
  LittleEndian.Uint32 (LittleEndian.PutUint32 (make 4) a) = a.
Proof.
  intros Ha. cbv [LittleEndian.Uint32 LittleEndian.PutUint32 make repeat store nth].
  apply Z.bits_inj'. intros n Hn.
  assert (C : n < 8 \/ 8 <= n < 16 \/ 16 <= n < 24 \/ 24 <= n < 32 \/ 32 <= n) by lia.
  destruct C as [C|[C|[C|[C|C]]]].
  5: { rewrite (testbit_beyond a 32 n) by lia. byte_bits n; try reflexivity. }
  all: byte_bits n.
  all: below_zero_bits; rewrite ?orb_false_r; try reflexivity; f_equal; lia.
Qed.

Lemma Uint16_PutUint16 v :
  0 <= v < 2 ^ 16 ->
  LittleEndian.Uint16 (LittleEndian.PutUint16 [0; 0] v) = v.
Proof.
  intros Hv. cbv [LittleEndian.Uint16 LittleEndian.PutUint16 store nth].
  apply Z.bits_inj'. intros n Hn.
  assert (C : n < 8 \/ 8 <= n < 16 \/ 16 <= n) by lia.
  destruct C as [C|[C|C]].
  3: { rewrite (testbit_beyond v 16 n) by lia. byte_bits n; try reflexivity. }
  all: byte_bits n.
  all: below_zero_bits; rewrite ?orb_false_r; try reflexivity; f_equal; lia.
Qed.

(** The flags byte packs the four flags above the options length, and
    unpacking gives all five back. *)
Lemma FCtrl_pack_unpack c c0 :
  0 <= FCtrl.fOptsLen c <= 15 ->
  exists b,
    FCtrl.MarshalBinary c = ([b], None)
    /\ FCtrl.UnmarshalBinary c0 [b] = (c, None)
    /\ FCtrl.optionsLength b = FCtrl.fOptsLen c.
Proof.
  destruct c as [adr req ack fp n]. cbn [FCtrl.fOptsLen]. intros Hn.
  rewrite <- (Z2Nat.id n) by lia.
  assert (Hk : (Z.to_nat n < 16)%nat) by lia.
  clear Hn. revert Hk. generalize (Z.to_nat n). clear n. intros k Hk.
  do 16 (destruct k as [|k];
         [destruct adr, req, ack, fp; eexists; repeat split; reflexivity|]).
  lia.
Qed.

(** ** Encoding a header *)

Section Encode.

Context {cmds : Commands}.

(** The loop appends to [opts]; its outcome is that of a run from the
    empty buffer. *)
Lemma range_FOpts_acc up macs acc :
  FHDR.range_FOpts up macs acc =
  match FHDR.range_FOpts up macs [] with
  | (s, None) => (acc ++ s, None)
  | (_, Some err) => ([], Some err)
  end.
Proof.
  revert acc. induction macs as [|mac macs IH]; intros acc; simpl.
  - rewrite app_nil_r. reflexivity.
  - destruct (MACCommand_MarshalBinary _) as [b [err|]]; [reflexivity|].
    rewrite (IH (acc ++ b)), (IH b).
    destruct (FHDR.range_FOpts up macs []) as [s [err|]]; [reflexivity|].
    rewrite app_assoc. reflexivity.
Qed.

(** Commands that fit the switch serialize to a well-formed stream. *)
Lemma range_FOpts_fits up macs :
  Forall (FHDR.fits up) macs ->
  exists s,
    FHDR.range_FOpts up macs [] = (s, None)
    /\ FHDR.decodes up s (map (fun m => MACCommand.with_uplink m up) macs).
Proof.
  induction 1 as [|mac macs [c [p [Hm [Hp Hu]]]] _ [s [Hs Hd]]].
  - exists []. split; [reflexivity|constructor].
  - exists (c :: p ++ s). split.
    + simpl. rewrite Hm, range_FOpts_acc, Hs. reflexivity.
    + simpl. constructor; assumption.
Qed.

(** The three ways [MarshalBinary] ends. *)
Lemma MarshalBinary_cmd_error h s err :
  FHDR.range_FOpts (FHDR.uplink h) (FHDR.FOpts h) [] = (s, Some err) ->
  FHDR.MarshalBinary h = ([], Some err).
Proof.
  intros Hr. unfold FHDR.MarshalBinary, FHDR.call_value, FHDR.MarshalBinary_body.
  rewrite Hr. reflexivity.
Qed.

Lemma MarshalBinary_too_long h opts :
  FHDR.range_FOpts (FHDR.uplink h) (FHDR.FOpts h) [] = (opts, None) ->
  15 < uint8 (Z.of_nat (length opts)) ->
  FHDR.MarshalBinary h = ([], errors_New "lorawan: max number of FOpts bytes is 15").
Proof.
  intros Hr L. unfold FHDR.MarshalBinary, FHDR.call_value, FHDR.MarshalBinary_body.
  rewrite Hr. cbv zeta. cbn [FHDR.FCtrl FHDR.with_FCtrl FCtrl.fOptsLen FCtrl.with_fOptsLen].
  destruct (Z.ltb_spec 15 (uint8 (Z.of_nat (length opts)))); [reflexivity|lia].
Qed.

Lemma MarshalBinary_ok h opts :
  FHDR.range_FOpts (FHDR.uplink h) (FHDR.FOpts h) [] = (opts, None) ->
  uint8 (Z.of_nat (length opts)) <= 15 ->
  exists b,
    FCtrl.MarshalBinary
      (FCtrl.with_fOptsLen (FHDR.FCtrl h) (uint8 (Z.of_nat (length opts))))
    = ([b], None)
    /\ FHDR.MarshalBinary h =
       (uint8 (FHDR.DevAddr h)
          :: uint8 (Z.shiftr (FHDR.DevAddr h) 8)
          :: uint8 (Z.shiftr (FHDR.DevAddr h) 16)
          :: uint8 (Z.shiftr (FHDR.DevAddr h) 24)
          :: b
          :: uint8 (FHDR.Fcnt h)
          :: uint8 (Z.shiftr (FHDR.Fcnt h) 8)
          :: opts, None).
Proof.
  intros Hr L. unfold FHDR.MarshalBinary, FHDR.call_value, FHDR.MarshalBinary_body.
  rewrite Hr. cbv zeta.
  cbn [FHDR.FCtrl FHDR.with_FCtrl FHDR.DevAddr FHDR.Fcnt
       FCtrl.fOptsLen FCtrl.with_fOptsLen].
  destruct (Z.ltb_spec 15 (uint8 (Z.of_nat (length opts)))) as [|_]; [lia|].
  unfold FCtrl.MarshalBinary at 2.
  unfold FCtrl.MarshalBinary.
  cbn [FCtrl.fOptsLen FCtrl.with_fOptsLen].
  destruct (Z.ltb_spec 15 (uint8 (Z.of_nat (length opts)))) as [|_]; [lia|].
  eexists. split; [reflexivity|]. reflexivity.
Qed.

End Encode.

(** ** Decoding a header *)

Section Decode.

Context {cmds : Commands}.

(** With at least seven bytes the prefix is stored and the scan runs on
    what follows (on nothing, when there are exactly seven). *)
Lemma UnmarshalBinary_long h data :
  (7 <= length data)%nat ->
  FHDR.UnmarshalBinary h data = FHDR.scan data (FHDR.prefixed h data) 0.
Proof.
  intros L.
  destruct data as [|a0 [|a1 [|a2 [|a3 [|b [|f0 [|f1 rest]]]]]]];
    simpl in L; try lia.
  unfold FHDR.UnmarshalBinary, FHDR.prefixed.
  cbn [length Nat.ltb Nat.leb slice skipn firstn Nat.sub
       DevAddr.UnmarshalBinary FCtrl.UnmarshalBinary Nat.eqb negb fst
       FHDR.with_DevAddr FHDR.with_FCtrl FHDR.with_Fcnt
       FHDR.DevAddr FHDR.FCtrl FHDR.Fcnt FHDR.FOpts FHDR.uplink].
  destruct rest as [|r rest]; [|reflexivity].
  rewrite scan_view. reflexivity.
Qed.

Lemma UnmarshalBinary_short h data :
  (length data < 7)%nat ->
  FHDR.UnmarshalBinary h data
  = (h, errors_New "lorawan: at least 7 bytes are expected").
Proof.
  intros L. unfold FHDR.UnmarshalBinary.
  destruct (Nat.ltb_spec (length data) 7); [reflexivity|lia].
Qed.

End Decode.

(** * The header codec *)

Section Codec.

Context {cmds : Commands}.

Lemma Uint32_bytes a :
  0 <= a < 2 ^ 32 ->
  LittleEndian.Uint32
    [uint8 a; uint8 (Z.shiftr a 8); uint8 (Z.shiftr a 16); uint8 (Z.shiftr a 24)]
  = a.
Proof. exact (Uint32_PutUint32 a). Qed.

Lemma Uint16_bytes v :
  0 <= v < 2 ^ 16 ->
  LittleEndian.Uint16 [uint8 v; uint8 (Z.shiftr v 8)] = v.
Proof. exact (Uint16_PutUint16 v). Qed.

Lemma uint8_small n : (n <= 255)%nat -> uint8 (Z.of_nat n) = Z.of_nat n.
Proof. intros L. unfold uint8. apply Z.mod_small. lia. Qed.

Lemma directed_same (h : FHDR.t) :
  Forall (fun mac => MACCommand.uplink mac = FHDR.uplink h) (FHDR.FOpts h) ->
  FHDR.directed h = FHDR.FOpts h.
Proof.
  unfold FHDR.directed. induction 1 as [|[u b] l Hu _ IH]; simpl.
  - reflexivity.
  - simpl in Hu. subst u. rewrite IH. reflexivity.
Qed.

(** C1, as amended.  Round trip: let the commands of [h] fit the length
    switch under the header's direction (each serializes to its identifier
    and a payload of the switch's length, which the command decoder turns
    back into the command) and let the serialized command stream have at
    most 15 bytes.  Then [MarshalBinary] succeeds, and [UnmarshalBinary]
    of its bytes into a header [h0] of the same direction and without
    commands succeeds and gives back the address, the counter, the four
    flags and the commands of [h], each command carrying the header's
    direction: the same command sequence when the commands already
    carried it. *)
Theorem roundtrip_fitting_commands (h h0 : FHDR.t) :
  0 <= FHDR.DevAddr h < 2 ^ 32 ->
  0 <= FHDR.Fcnt h < 2 ^ 16 ->
  Forall (FHDR.fits (FHDR.uplink h)) (FHDR.FOpts h) ->
  (length (FHDR.stream h) <= 15)%nat ->
  FHDR.uplink h0 = FHDR.uplink h ->
  FHDR.FOpts h0 = [] ->
  exists bs h',
    FHDR.MarshalBinary h = (bs, None)
    /\ FHDR.UnmarshalBinary h0 bs = (h', None)
    /\ FHDR.DevAddr h' = FHDR.DevAddr h
    /\ FHDR.Fcnt h' = FHDR.Fcnt h
    /\ FCtrl.ADR (FHDR.FCtrl h') = FCtrl.ADR (FHDR.FCtrl h)
    /\ FCtrl.ADRACKReq (FHDR.FCtrl h') = FCtrl.ADRACKReq (FHDR.FCtrl h)
    /\ FCtrl.ACK (FHDR.FCtrl h') = FCtrl.ACK (FHDR.FCtrl h)
    /\ FCtrl.FPending (FHDR.FCtrl h') = FCtrl.FPending (FHDR.FCtrl h)
    /\ FHDR.FOpts h' = FHDR.directed h
    /\ (Forall (fun mac => MACCommand.uplink mac = FHDR.uplink h) (FHDR.FOpts h) ->
        FHDR.FOpts h' = FHDR.FOpts h).
Proof.
  intros Ha Hf Hfits Hlen Hup Hnil.
  destruct (range_FOpts_fits _ _ Hfits) as [s [Hs Hd]].
  unfold FHDR.stream in Hlen. rewrite Hs in Hlen. simpl in Hlen.
  assert (Hu : uint8 (Z.of_nat (length s)) = Z.of_nat (length s))
    by (apply uint8_small; lia).
  destruct (MarshalBinary_ok h s Hs) as [b [Hb Hm]]; [rewrite Hu; lia|].
  destruct (FCtrl_pack_unpack
              (FCtrl.with_fOptsLen (FHDR.FCtrl h) (uint8 (Z.of_nat (length s))))
              (FHDR.FCtrl h0)) as [b' [Hb' [Hun _]]].
  { simpl. rewrite Hu. lia. }
  rewrite Hb in Hb'. injection Hb' as <-.
  eexists. eexists. split; [exact Hm|].
  rewrite UnmarshalBinary_long by (simpl; lia).
  rewrite (scan_decodes _ _ _ Hd) by (simpl; auto).
  unfold FHDR.prefixed.
  cbn [slice skipn firstn Nat.sub FHDR.FOpts FHDR.uplink FHDR.with_FOpts
       FHDR.DevAddr FHDR.Fcnt FHDR.FCtrl].
  rewrite Hun, Hnil, Uint32_bytes, Uint16_bytes by assumption.
  simpl. repeat split; try reflexivity.
  intros Hdir. exact (directed_same h Hdir).
Qed.

(** C2, as amended.  A failed decode does not restore the header.  When
    [UnmarshalBinary] returns an error on fewer than 7 bytes the header is
    exactly as before.  When it returns an error on 7 bytes or more, the
    address, the flags byte and the counter have been overwritten from the
    prefix of the input, the direction is as before, and the commands are
    the previous ones followed by all the commands of the stream in front
    of the command the scan failed on: the one whose payload is cut short
    (error "not enough remaining bytes") or that the command decoder
    refused (its error). *)
Theorem failed_decode_state (h h' : FHDR.t) (data : list byte) (err : error) :
  FHDR.UnmarshalBinary h data = (h', Some err) ->
  ((length data < 7)%nat /\ h' = h)
  \/ ((7 <= length data)%nat
      /\ FHDR.DevAddr h' = LittleEndian.Uint32 (slice data 0 4)
      /\ FHDR.FCtrl h' = fst (FCtrl.UnmarshalBinary (FHDR.FCtrl h) (slice data 4 5))
      /\ FHDR.Fcnt h' = LittleEndian.Uint16 (slice data 5 7)
      /\ FHDR.uplink h' = FHDR.uplink h
      /\ exists good new c tl,
           skipn 7 data = good ++ c :: tl
           /\ FHDR.decodes (FHDR.uplink h) good new
           /\ FHDR.FOpts h' = FHDR.FOpts h ++ new
           /\ (((length tl < FHDR.pLen (FHDR.uplink h) c)%nat
                /\ Some err = errors_New "lorawan: not enough remaining bytes")
               \/ ((FHDR.pLen (FHDR.uplink h) c <= length tl)%nat
                   /\ exists mc,
                        MACCommand_UnmarshalBinary
                          (MACCommand.mk (FHDR.uplink h) zero)
                          (c :: firstn (FHDR.pLen (FHDR.uplink h) c) tl)
                        = (mc, Some err)))).
Proof.
  intros H. destruct (Nat.lt_ge_cases (length data) 7) as [L|L].
  - left. rewrite UnmarshalBinary_short in H by exact L.
    injection H as <- _. split; [exact L|reflexivity].
  - right. rewrite UnmarshalBinary_long in H by exact L.
    destruct (scan_failure data (FHDR.prefixed h data) 0 err)
      as [good [new [c [tl [Hs [Hd [Hf Hstop]]]]]]].
    { rewrite H. reflexivity. }
    rewrite H in Hf. cbn [fst] in Hf. subst h'.
    split; [exact L|]. repeat (split; [reflexivity|]).
    exists good, new, c, tl. repeat split; assumption.
Qed.

(** C3.  The header with address 0x01020304, only the ADR flag set,
    counter 5 and no commands encodes to 04 03 02 01 80 05 00, whatever
    direction and options length it held. *)
Theorem encode_vector (n : Z) (up : bool) :
  FHDR.MarshalBinary
    (FHDR.mk 0x01020304 (FCtrl.mk true false false false n) 5 [] up)
  = ([0x04; 0x03; 0x02; 0x01; 0x80; 0x05; 0x00], None).
Proof. reflexivity. Qed.

(** The size check of [MarshalBinary] on streams shorter than 256 bytes:
    15 bytes pass, 16 and more are refused without output. *)
Lemma MarshalBinary_boundary h opts :
  FHDR.range_FOpts (FHDR.uplink h) (FHDR.FOpts h) [] = (opts, None) ->
  ((length opts <= 15)%nat -> snd (FHDR.MarshalBinary h) = None)
  /\ ((16 <= length opts < 256)%nat ->
      FHDR.MarshalBinary h
      = ([], errors_New "lorawan: max number of FOpts bytes is 15")).
Proof.
  intros Hr. split; intros L.
  - destruct (MarshalBinary_ok h opts Hr) as [b [_ Hm]].
    + rewrite uint8_small by lia. lia.
    + rewrite Hm. reflexivity.
  - apply (MarshalBinary_too_long h opts Hr). rewrite uint8_small by lia. lia.
Qed.

(** A successful encode of a stream shorter than 256 bytes stores the
    stream's length in the low four bits of the byte at offset 4, and the
    options length held before plays no role. *)
Lemma MarshalBinary_optionsLength h opts bs :
  FHDR.range_FOpts (FHDR.uplink h) (FHDR.FOpts h) [] = (opts, None) ->
  (length opts < 256)%nat ->
  FHDR.MarshalBinary h = (bs, None) ->
  FCtrl.optionsLength (nth 4 bs 0) = Z.of_nat (length opts).
Proof.
  intros Hr L Hm.
  destruct (Z.lt_ge_cases 15 (uint8 (Z.of_nat (length opts)))) as [G|G].
  - rewrite (MarshalBinary_too_long h opts Hr G) in Hm. discriminate.
  - destruct (MarshalBinary_ok h opts Hr G) as [b [Hb Hm']].
    rewrite Hm in Hm'. injection Hm' as ->.
    rewrite uint8_small in * by lia.
    destruct (FCtrl_pack_unpack
                (FCtrl.with_fOptsLen (FHDR.FCtrl h) (Z.of_nat (length opts)))
                (FHDR.FCtrl h)) as [b' [Hb' [_ Ho]]].
    { simpl. lia. }
    rewrite Hb in Hb'. injection Hb' as <-. exact Ho.
Qed.

Lemma MarshalBinary_ignores_fOptsLen h n :
  FHDR.MarshalBinary (FHDR.with_FCtrl h (FCtrl.with_fOptsLen (FHDR.FCtrl h) n))
  = FHDR.MarshalBinary h.
Proof.
  destruct h as [a [adr req ack fp m] f macs up].
  unfold FHDR.MarshalBinary, FHDR.call_value, FHDR.MarshalBinary_body.
  cbn [FHDR.with_FCtrl FHDR.uplink FHDR.FOpts FHDR.FCtrl FHDR.DevAddr FHDR.Fcnt
       FCtrl.with_fOptsLen FCtrl.fOptsLen FCtrl.ADR FCtrl.ADRACKReq FCtrl.ACK
       FCtrl.FPending].
  destruct (FHDR.range_FOpts up macs []) as [s [err|]]; [reflexivity|].
  cbv zeta. cbn [FHDR.FCtrl FCtrl.fOptsLen].
  destruct (15 <? uint8 (Z.of_nat (length s))) eqn:E; [reflexivity|].
  unfold FCtrl.MarshalBinary, FCtrl.with_fOptsLen, FHDR.with_FCtrl.
  cbn [FHDR.FCtrl FCtrl.fOptsLen]. rewrite E. reflexivity.
Qed.

(** A well-formed stream after the prefix is decoded to its end. *)
Lemma UnmarshalBinary_decodes (h : FHDR.t) (data : list byte) mcs :
  (7 <= length data)%nat ->
  FHDR.decodes (FHDR.uplink h) (skipn 7 data) mcs ->
  FHDR.UnmarshalBinary h data
  = (FHDR.with_FOpts (FHDR.prefixed h data) (FHDR.FOpts h ++ mcs), None).
Proof.
  intros L Hd. rewrite UnmarshalBinary_long by exact L.
  rewrite (scan_decodes _ _ _ Hd); reflexivity.
Qed.

(** C6.  Decode has no ceiling on the command stream: whenever the bytes
    after the 7-byte prefix are a well-formed command stream, of any
    length, [UnmarshalBinary] returns no error and appends its commands. *)
Theorem decode_any_size (h : FHDR.t) (data : list byte) mcs :
  (7 <= length data)%nat ->
  FHDR.decodes (FHDR.uplink h) (skipn 7 data) mcs ->
  snd (FHDR.UnmarshalBinary h data) = None
  /\ FHDR.FOpts (fst (FHDR.UnmarshalBinary h data)) = FHDR.FOpts h ++ mcs.
Proof.
  intros L Hd. rewrite (UnmarshalBinary_decodes h data mcs L Hd).
  split; reflexivity.
Qed.


(** C7.  Truncation: when the scan, after a well-formed part of the
    stream, stands on an identifier [c] followed by fewer bytes than the
    payload length resolved for [c], [UnmarshalBinary] fails with the
    error "not enough remaining bytes". *)
Theorem decode_truncated (h : FHDR.t) (data good : list byte) mcs c p :
  (7 <= length data)%nat ->
  skipn 7 data = good ++ c :: p ->
  FHDR.decodes (FHDR.uplink h) good mcs ->
  (length p < FHDR.pLen (FHDR.uplink h) c)%nat ->
  snd (FHDR.UnmarshalBinary h data)
  = errors_New "lorawan: not enough remaining bytes".
Proof.
  intros L Hs Hd Hp. rewrite UnmarshalBinary_long by exact L.
  rewrite (scan_truncated _ _ _ Hd _ _ 0%nat c p); auto.
Qed.

Lemma pLen_outside_table up c :
  ~ FHDR.in_table up c -> FHDR.pLen up c = 0%nat.
Proof.
  intros Hn. unfold FHDR.pLen.
  destruct up; cbn [negb andb];
    repeat match goal with
      | |- context [c =? ?K] =>
          destruct (Z.eqb_spec c K) as [->|_];
          [ exfalso; apply Hn; unfold FHDR.in_table, FHDR.table;
            eexists; cbn [In];
            repeat (first [left; reflexivity | right])
          | ]
      end; reflexivity.
Qed.



Lemma skipn_cons_nth_error {A} (a : list A) (i : nat) :
  (i < length a)%nat ->
  exists x, nth_error a i = Some x /\ skipn i a = x :: skipn (S i) a.
Proof.
  revert a. induction i as [|i IH]; intros [|y a] L; simpl in L; try lia.
  - exists y. split; reflexivity.
  - destruct (IH a) as [x [Hn Hs]]; [lia|]. exists x. split; assumption.
Qed.

(** The loop on the array does what the loop on the commands of the slice
    does, and leaves the array as it was. *)
Lemma Shared_range_FOpts up (a : Shared.array) n :
  forall i opts,
    (i + n <= length a)%nat ->
    Shared.range_FOpts up a i n opts
    = (a, FHDR.range_FOpts up (firstn n (skipn i a)) opts).
Proof.
  induction n as [|n IH]; intros i opts L; [reflexivity|].
  destruct (skipn_cons_nth_error a i) as [x [Hn Hs]]; [lia|].
  cbn [Shared.range_FOpts]. rewrite Hn, Hs. cbn [firstn FHDR.range_FOpts].
  destruct (MACCommand_MarshalBinary _) as [b [err|]]; [reflexivity|].
  apply IH. lia.
Qed.

(** C9.  Encoding leaves the caller's header untouched.  The body of
    [MarshalBinary] never writes the array behind [FOpts] and changes at
    most the options length of its receiver copy; so after the call
    [x.MarshalBinary()], on success and on failure, the caller's variable
    and the commands it shows are what they were, and the returned pair is
    the encoding of that header. *)
Theorem encode_keeps_caller (a : Shared.array) (x : Shared.t) :
  (Shared.off (Shared.FOpts x) + Shared.len (Shared.FOpts x) <= length a)%nat ->
  exists h' r,
    Shared.MarshalBinary_body a x = (a, h', r)
    /\ Shared.call_MarshalBinary a x = (a, x, r)
    /\ r = FHDR.MarshalBinary (Shared.value a x)
    /\ (h' = x
        \/ h' = Shared.with_FCtrl x
                  (FCtrl.with_fOptsLen (Shared.FCtrl x)
                     (uint8 (Z.of_nat
                               (length (FHDR.stream (Shared.value a x))))))).
Proof.
  intros L.
  assert (B : exists h' r,
    Shared.MarshalBinary_body a x = (a, h', r)
    /\ r = snd (FHDR.MarshalBinary_body (Shared.value a x))
    /\ (h' = x
        \/ h' = Shared.with_FCtrl x
                  (FCtrl.with_fOptsLen (Shared.FCtrl x)
                     (uint8 (Z.of_nat
                               (length (FHDR.stream (Shared.value a x)))))))).
  { unfold Shared.MarshalBinary_body, FHDR.MarshalBinary_body, FHDR.stream.
    rewrite (Shared_range_FOpts _ _ _ _ _ L).
    cbn [Shared.value FHDR.uplink FHDR.FOpts FHDR.FCtrl FHDR.DevAddr FHDR.Fcnt
         FHDR.with_FCtrl Shared.elements].
    destruct (FHDR.range_FOpts _ _ _) as [s [err|]].
    - eexists. eexists. split; [reflexivity|]. split; [reflexivity|].
      left. reflexivity.
    - cbv zeta.
      cbn [Shared.with_FCtrl Shared.FCtrl Shared.DevAddr Shared.Fcnt fst].
      destruct (15 <? _).
      + eexists. eexists. split; [reflexivity|]. split; [reflexivity|].
        right. reflexivity.
      + unfold DevAddr.MarshalBinary.
        destruct (FCtrl.MarshalBinary _) as [b [err|]];
          (eexists; eexists; split; [reflexivity|]; split; [reflexivity|];
           right; reflexivity). }
  destruct B as [h' [r [Hb [Hr Hh]]]]. exists h', r.
  split; [exact Hb|]. split; [|split; [|exact Hh]].
  - unfold Shared.call_MarshalBinary. rewrite Hb. reflexivity.
  - rewrite Hr. unfold FHDR.MarshalBinary, FHDR.call_value.
    destruct (FHDR.MarshalBinary_body _). reflexivity.
Qed.

(** C10.  Decode appends.  After a successful [UnmarshalBinary] the
    commands of the header are the ones it held before followed by the
    commands of the stream, which are those a header without commands
    receives from the same bytes. *)
Theorem decode_appends (h h' : FHDR.t) (data : list byte) :
  FHDR.UnmarshalBinary h data = (h', None) ->
  exists new,
    FHDR.decodes (FHDR.uplink h) (skipn 7 data) new
    /\ FHDR.FOpts h' = FHDR.FOpts h ++ new
    /\ FHDR.UnmarshalBinary (FHDR.with_FOpts h []) data
       = (FHDR.with_FOpts h' new, None).
Proof.
  intros H. destruct (Nat.lt_ge_cases (length data) 7) as [L|L].
  { rewrite UnmarshalBinary_short in H by exact L. discriminate. }
  rewrite UnmarshalBinary_long in H by exact L.
  destruct (scan_complete data (FHDR.prefixed h data) 0) as [new [Hd Hf]].
  { rewrite H. reflexivity. }
  rewrite H in Hf. simpl in Hf. subst h'.
  exists new. split; [exact Hd|]. split; [reflexivity|].
  rewrite UnmarshalBinary_long by exact L.
  rewrite (scan_decodes _ _ _ Hd); reflexivity.
Qed.

End Codec.

(** * The codec on concrete headers *)

Ltac chunk c p :=
  eapply (FHDR.decodes_cons (cmds := Raw.commands) _ c p);
  [reflexivity | reflexivity | ].

Lemma roundtrip_fitting_commands_witness :
  exists bs h',
    Raw.encode Examples.answers = (bs, None)
    /\ Raw.decode (Examples.blank false) bs = (h', None)
    /\ h' = Examples.answers_decoded.
Proof.
  destruct (roundtrip_fitting_commands (cmds := Raw.commands)
              Examples.answers (Examples.blank false))
    as [bs [h' [He [Hd _]]]].
  - simpl. lia.
  - simpl. lia.
  - repeat constructor; eexists; eexists; repeat split; reflexivity.
  - vm_compute. lia.
  - reflexivity.
  - reflexivity.
  - exists bs, h'. split; [exact He|]. split; [exact Hd|].
    vm_compute in He. injection He as <-. vm_compute in Hd.
    injection Hd as <-. reflexivity.
Defined.

(** C1, counterexample.  The header [Examples.unlisted] has a command
    stream of 2 bytes and encodes without error, yet decoding its bytes as
    downlink fails: the payload byte 0x02 is read as the identifier of a
    LinkCheckAns whose payload is missing. *)
Lemma roundtrip_fails_unlisted_payload :
  length (FHDR.stream Examples.unlisted) = 2%nat
  /\ Raw.encode Examples.unlisted = (Examples.unlisted_bytes, None)
  /\ Raw.decode (Examples.blank false) Examples.unlisted_bytes
     = (Raw.header 0x01020304 (FCtrl.mk true false false false 2) 5
          [Raw.cmd false 0x80 []] false,
        errors_New "lorawan: not enough remaining bytes").
Proof. repeat split; reflexivity. Qed.

(** The direction field of a decoded command is the header's: a command
    built with the other direction does not come back as it was. *)
Example roundtrip_direction_overwritten :
  FHDR.FOpts (fst (Raw.decode (Examples.blank false)
                     (fst (Raw.encode Examples.answers))))
  = FHDR.directed Examples.answers
  /\ FHDR.directed Examples.answers <> FHDR.FOpts Examples.answers.
Proof. split; [reflexivity|discriminate]. Qed.

Lemma failed_decode_state_witness :
  exists good new c tl,
    skipn 7 Examples.cut_short = good ++ c :: tl
    /\ FHDR.decodes false good new
    /\ FHDR.FOpts Examples.cut_short_decoded
       = FHDR.FOpts (Examples.blank false) ++ new
    /\ (((length tl < FHDR.pLen (cmds := Raw.commands) false c)%nat
         /\ Some "lorawan: not enough remaining bytes"%string
            = errors_New "lorawan: not enough remaining bytes")
        \/ ((FHDR.pLen (cmds := Raw.commands) false c <= length tl)%nat
            /\ exists mc,
                 Raw.UnmarshalBinary (MACCommand.mk false (Raw.mk 0 []))
                   (c :: firstn (FHDR.pLen (cmds := Raw.commands) false c) tl)
                 = (mc, Some "lorawan: not enough remaining bytes"%string))).
Proof.
  destruct (failed_decode_state (cmds := Raw.commands)
              (Examples.blank false) Examples.cut_short_decoded
              Examples.cut_short "lorawan: not enough remaining bytes"%string)
    as [[L _]|[_ [_ [_ [_ [_ H]]]]]].
  - reflexivity.
  - simpl in L. lia.
  - exact H.
Defined.

(** C2, counterexample.  Decoding [Examples.cut_short] into a blank
    downlink header fails on the truncated second command, and the header
    is left with the decoded address, flags and counter and with the first
    command. *)
Lemma failed_decode_not_atomic :
  Raw.decode (Examples.blank false) Examples.cut_short
  = (Examples.cut_short_decoded,
     errors_New "lorawan: not enough remaining bytes")
  /\ Examples.cut_short_decoded <> Examples.blank false.
Proof. split; [reflexivity|discriminate]. Qed.

(** C4, the failing input.  The 256 one-byte commands of [Examples.wide]
    serialize to 256 bytes, and [MarshalBinary] returns no error and a
    header of 263 bytes: the length is cut to [uint8] before it is compared
    with 15. *)
Theorem encode_accepts_256_bytes :
  length (FHDR.stream Examples.wide) = 256%nat
  /\ snd (Raw.encode Examples.wide) = None
  /\ length (fst (Raw.encode Examples.wide)) = 263%nat.
Proof. vm_compute. repeat split. Qed.

(** C5, the failing input.  For [Examples.wide] encoding succeeds and the
    options length in the flags byte at offset 4 is 0, while the command
    stream that follows has 256 bytes. *)
Theorem encode_length_field_wraps :
  snd (Raw.encode Examples.wide) = None
  /\ FCtrl.optionsLength (nth 4 (fst (Raw.encode Examples.wide)) 0) = 0
  /\ skipn 7 (fst (Raw.encode Examples.wide)) = FHDR.stream Examples.wide
  /\ length (FHDR.stream Examples.wide) = 256%nat.
Proof. vm_compute. repeat split. Qed.

Lemma decode_any_size_witness :
  (15 < length (skipn 7 Examples.sixteen))%nat
  /\ snd (Raw.decode (Examples.blank false) Examples.sixteen) = None
  /\ FHDR.FOpts (fst (Raw.decode (Examples.blank false) Examples.sixteen))
     = Examples.sixteen_commands.
Proof.
  split; [simpl; lia|].
  apply (decode_any_size (cmds := Raw.commands)
           (Examples.blank false) Examples.sixteen Examples.sixteen_commands).
  - simpl. lia.
  - cbn [skipn Examples.sixteen Examples.blank FHDR.uplink Raw.header].
    chunk 3 [1; 2; 3; 4]. chunk 3 [5; 6; 7; 8]. chunk 3 [9; 10; 11; 12].
    chunk 6 (@nil byte). constructor.
Defined.

Lemma decode_truncated_witness :
  snd (Raw.decode (Examples.blank false) Examples.cut_short)
  = errors_New "lorawan: not enough remaining bytes".
Proof.
  apply (decode_truncated (cmds := Raw.commands)
           (Examples.blank false) Examples.cut_short [6]
           [Raw.cmd false 6 []] 2 [1]).
  - simpl. lia.
  - reflexivity.
  - chunk 6 (@nil byte). constructor.
  - vm_compute. lia.
Defined.


(** The same option bytes [02 07 09] are one command downlink and two
    commands uplink; [02 06 00] decodes downlink and is cut short uplink. *)
Example same_bytes_two_directions :
  FHDR.FOpts (fst (Raw.decode (Examples.blank false)
                     [0x04; 0x03; 0x02; 0x01; 0x80; 0x05; 0x00; 0x02; 7; 9]))
  = [Raw.cmd false 2 [7; 9]]
  /\ FHDR.FOpts (fst (Raw.decode (Examples.blank true)
                        [0x04; 0x03; 0x02; 0x01; 0x80; 0x05; 0x00; 0x02; 7; 9]))
     = [Raw.cmd true 2 []; Raw.cmd true 7 [9]]
  /\ snd (Raw.decode (Examples.blank false)
             [0x04; 0x03; 0x02; 0x01; 0x80; 0x05; 0x00; 0x02; 6; 0]) = None
  /\ snd (Raw.decode (Examples.blank true)
             [0x04; 0x03; 0x02; 0x01; 0x80; 0x05; 0x00; 0x02; 6; 0])
     = errors_New "lorawan: not enough remaining bytes".
Proof. repeat split; reflexivity. Qed.

Lemma decode_appends_witness :
  exists new,
    FHDR.decodes false (skipn 7 Examples.one_answer) new
    /\ FHDR.FOpts Examples.reused_decoded = FHDR.FOpts Examples.reused ++ new
    /\ Raw.decode (FHDR.with_FOpts Examples.reused []) Examples.one_answer
       = (FHDR.with_FOpts Examples.reused_decoded new, None).
Proof.
  apply (decode_appends (cmds := Raw.commands)
           Examples.reused Examples.reused_decoded Examples.one_answer).
  reflexivity.
Defined.

Lemma encode_keeps_caller_witness :
  exists h' r,
    Shared.MarshalBinary_body (cmds := Raw.commands)
      [Raw.cmd true 2 [7; 9]; Raw.cmd false 3 [1; 2; 3; 4]; Raw.cmd false 6 []]
      (Shared.mk 0x01020304 (FCtrl.mk true false true false 9) 5
         (Shared.Slice 0 2) false)
    = ([Raw.cmd true 2 [7; 9]; Raw.cmd false 3 [1; 2; 3; 4]; Raw.cmd false 6 []],
       h', r)
    /\ Shared.call_MarshalBinary (cmds := Raw.commands)
         [Raw.cmd true 2 [7; 9]; Raw.cmd false 3 [1; 2; 3; 4]; Raw.cmd false 6 []]
         (Shared.mk 0x01020304 (FCtrl.mk true false true false 9) 5
            (Shared.Slice 0 2) false)
       = ([Raw.cmd true 2 [7; 9]; Raw.cmd false 3 [1; 2; 3; 4]; Raw.cmd false 6 []],
          Shared.mk 0x01020304 (FCtrl.mk true false true false 9) 5
            (Shared.Slice 0 2) false,
          r)
    /\ r = Raw.encode Examples.answers.
Proof.
  destruct (encode_keeps_caller (cmds := Raw.commands)
              [Raw.cmd true 2 [7; 9]; Raw.cmd false 3 [1; 2; 3; 4];
               Raw.cmd false 6 []]
              (Shared.mk 0x01020304 (FCtrl.mk true false true false 9) 5
                 (Shared.Slice 0 2) false))
    as [h' [r [Hb [Hc [Hr _]]]]].
  - simpl. lia.
  - exists h', r. split; [exact Hb|]. split; [exact Hc|exact Hr].
Defined.

(** * Further properties of the codec *)

(** ** DevAddr and FCtrl *)

Lemma uint8_range x : 0 <= uint8 x < 256.
Proof. unfold uint8. change (2 ^ 8) with 256. apply Z.mod_pos_bound. lia. Qed.

(** A byte placed above [k] free low bits is added, not mixed. *)
Lemma lor_shiftl_add a b k :
  0 <= k -> 0 <= a < 2 ^ k ->
  Z.lor a (Z.shiftl b k) = a + b * 2 ^ k.
Proof.
  intros Hk Ha. rewrite <- Z.shiftl_mul_pow2 by exact Hk.
  assert (D : Z.land a (Z.shiftl b k) = 0).
  { apply Z.bits_inj'. intros n Hn. rewrite Z.land_spec, Z.bits_0.
    destruct (Z.lt_ge_cases n k) as [L|L].
    - rewrite Z.shiftl_spec_low by exact L. apply andb_false_r.
    - rewrite (testbit_beyond a k n) by lia. reflexivity. }
  rewrite <- (Z.lxor_lor _ _ D). symmetry. apply Z.add_nocarry_lxor. exact D.
Qed.

Lemma Uint32_value b0 b1 b2 b3 :
  0 <= b0 < 256 -> 0 <= b1 < 256 -> 0 <= b2 < 256 -> 0 <= b3 < 256 ->
  LittleEndian.Uint32 [b0; b1; b2; b3]
  = b0 + 2 ^ 8 * b1 + 2 ^ 16 * b2 + 2 ^ 24 * b3.
Proof.
  intros H0 H1 H2 H3. cbv [LittleEndian.Uint32 nth].
  rewrite (lor_shiftl_add b0 b1 8) by lia.
  rewrite (lor_shiftl_add _ b2 16) by lia.
  rewrite (lor_shiftl_add _ b3 24) by lia.
  lia.
Qed.

Lemma Uint16_value b0 b1 :
  0 <= b0 < 256 -> 0 <= b1 < 256 ->
  LittleEndian.Uint16 [b0; b1] = b0 + 2 ^ 8 * b1.
Proof.
  intros H0 H1. cbv [LittleEndian.Uint16 nth].
  rewrite (lor_shiftl_add b0 b1 8) by lia. lia.
Qed.

Lemma PutUint32_value b0 b1 b2 b3 :
  0 <= b0 < 256 -> 0 <= b1 < 256 -> 0 <= b2 < 256 -> 0 <= b3 < 256 ->
  LittleEndian.PutUint32 (make 4) (b0 + 2 ^ 8 * b1 + 2 ^ 16 * b2 + 2 ^ 24 * b3)
  = [b0; b1; b2; b3].
Proof.
  intros H0 H1 H2 H3. cbv [LittleEndian.PutUint32 make repeat store].
  unfold uint8. rewrite !Z.shiftr_div_pow2 by lia.
  change (2 ^ 8) with 256. change (2 ^ 16) with 65536.
  change (2 ^ 24) with 16777216.
  repeat f_equal; Z.div_mod_to_equations; lia.
Qed.

(** X1.  A 32-bit address encodes, without error, to four bytes, and these
    decode to the address again, whatever the receiver held. *)
Theorem DevAddr_roundtrip (a a0 : DevAddr.t) :
  0 <= a < 2 ^ 32 ->
  exists bs,
    DevAddr.MarshalBinary a = (bs, None)
    /\ length bs = 4%nat
    /\ Forall (fun b => 0 <= b < 256) bs
    /\ DevAddr.UnmarshalBinary a0 bs = (a, None).
Proof.
  intros Ha. eexists. split; [reflexivity|]. split; [reflexivity|]. split.
  - cbv [LittleEndian.PutUint32 make repeat store].
    repeat constructor; apply uint8_range.
  - unfold DevAddr.UnmarshalBinary. cbn [length Nat.eqb negb].
    rewrite (Uint32_PutUint32 a Ha). reflexivity.
Qed.

Lemma DevAddr_roundtrip_witness :
  DevAddr.MarshalBinary 0x01020304 = ([0x04; 0x03; 0x02; 0x01], None)
  /\ DevAddr.UnmarshalBinary 0 [0x04; 0x03; 0x02; 0x01] = (0x01020304, None).
Proof.
  destruct (DevAddr_roundtrip 0x01020304 0) as [bs [Hm [_ [_ Hu]]]]; [lia|].
  vm_compute in Hm. injection Hm as <-. split; [reflexivity|exact Hu].
Defined.

(** X2.  Four bytes decode to the address whose least significant byte
    comes first, [b0 + 2^8 b1 + 2^16 b2 + 2^24 b3], and that address encodes
    to the same four bytes: the address codec loses nothing in either
    direction. *)
Theorem DevAddr_bytes_roundtrip (a0 : DevAddr.t) (b0 b1 b2 b3 : byte) :
  0 <= b0 < 256 -> 0 <= b1 < 256 -> 0 <= b2 < 256 -> 0 <= b3 < 256 ->
  DevAddr.UnmarshalBinary a0 [b0; b1; b2; b3]
  = (b0 + 2 ^ 8 * b1 + 2 ^ 16 * b2 + 2 ^ 24 * b3, None)
  /\ DevAddr.MarshalBinary (b0 + 2 ^ 8 * b1 + 2 ^ 16 * b2 + 2 ^ 24 * b3)
     = ([b0; b1; b2; b3], None).
Proof.
  intros H0 H1 H2 H3. split.
  - unfold DevAddr.UnmarshalBinary. cbn [length Nat.eqb negb].
    rewrite Uint32_value by assumption. reflexivity.
  - unfold DevAddr.MarshalBinary. rewrite PutUint32_value by assumption.
    reflexivity.
Qed.

Lemma DevAddr_bytes_roundtrip_witness :
  DevAddr.UnmarshalBinary 0 [0x04; 0x03; 0x02; 0x01] = (0x01020304, None).
Proof.
  destruct (DevAddr_bytes_roundtrip 0 0x04 0x03 0x02 0x01) as [Hu _];
    try lia.
  exact Hu.
Defined.

Ltac each_nibble n adr req ack fp tac :=
  rewrite <- (Z2Nat.id n) by lia;
  let Hk := fresh "Hk" in
  assert (Hk : (Z.to_nat n < 16)%nat) by lia;
  revert Hk; generalize (Z.to_nat n); intros k Hk;
  do 16 (destruct k as [|k]; [destruct adr, req, ack, fp; tac|]);
  lia.

(** X3.  The bit layout of the flags byte: with an options length of at
    most 15, [FCtrl.MarshalBinary] gives the one byte whose bits 0 to 3 are
    the options length, bit 4 FPending, bit 5 ACK, bit 6 ADRACKReq and
    bit 7 ADR. *)
Theorem FCtrl_layout (c : FCtrl.t) :
  0 <= FCtrl.fOptsLen c <= 15 ->
  FCtrl.MarshalBinary c
  = ([FCtrl.fOptsLen c
      + 16 * Z.b2z (FCtrl.FPending c)
      + 32 * Z.b2z (FCtrl.ACK c)
      + 64 * Z.b2z (FCtrl.ADRACKReq c)
      + 128 * Z.b2z (FCtrl.ADR c)], None).
Proof.
  destruct c as [adr req ack fp n].
  cbn [FCtrl.fOptsLen FCtrl.FPending FCtrl.ACK FCtrl.ADRACKReq FCtrl.ADR].
  intros Hn. each_nibble n adr req ack fp reflexivity.
Qed.

Lemma FCtrl_layout_witness :
  FCtrl.MarshalBinary (FCtrl.mk true false true false 3) = ([0xA3], None).
Proof.
  rewrite (FCtrl_layout (FCtrl.mk true false true false 3)); [reflexivity|].
  simpl. lia.
Defined.

(** X4.  Flags round trip: with an options length of at most 15 the flags
    encode to one byte, and that byte decodes to the same four flags and
    the same options length, whatever the receiver held. *)
Theorem FCtrl_roundtrip (c c0 : FCtrl.t) :
  0 <= FCtrl.fOptsLen c <= 15 ->
  exists b,
    FCtrl.MarshalBinary c = ([b], None)
    /\ 0 <= b < 256
    /\ FCtrl.UnmarshalBinary c0 [b] = (c, None).
Proof.
  destruct c as [adr req ack fp n]. cbn [FCtrl.fOptsLen]. intros Hn.
  each_nibble n adr req ack fp
    ltac:(eexists; split; [reflexivity|]; split; [simpl; lia|reflexivity]).
Qed.

Lemma FCtrl_roundtrip_witness :
  FCtrl.UnmarshalBinary (FCtrl.mk false false false false 0) [0xA3]
  = (FCtrl.mk true false true false 3, None).
Proof.
  destruct (FCtrl_roundtrip (FCtrl.mk true false true false 3)
              (FCtrl.mk false false false false 0)) as [b [Hm [_ Hu]]].
  - simpl. lia.
  - vm_compute in Hm. injection Hm as <-. exact Hu.
Defined.

(** One byte, unpacked and packed again. *)
Lemma FCtrl_unpack_pack (c0 : FCtrl.t) (b : byte) :
  0 <= b < 256 ->
  exists c,
    FCtrl.UnmarshalBinary c0 [b] = (c, None)
    /\ FCtrl.fOptsLen c = FCtrl.optionsLength b
    /\ 0 <= FCtrl.fOptsLen c <= 15
    /\ FCtrl.MarshalBinary c = ([b], None).
Proof.
  intros Hb. rewrite <- (Z2Nat.id b) by lia.
  assert (Hk : (Z.to_nat b < 256)%nat) by lia.
  revert Hk. generalize (Z.to_nat b). intros k Hk.
  do 256 (destruct k as [|k];
          [eexists; split; [reflexivity|]; split; [reflexivity|];
           split; [cbn; lia|reflexivity]|]).
  lia.
Qed.

(** X5.  Every byte is a flags byte: one byte always decodes, to an options
    length between 0 and 15, and the decoded flags encode to that byte
    again. *)
Theorem FCtrl_byte_roundtrip (c0 : FCtrl.t) (b : byte) :
  0 <= b < 256 ->
  exists c,
    FCtrl.UnmarshalBinary c0 [b] = (c, None)
    /\ 0 <= FCtrl.fOptsLen c <= 15
    /\ FCtrl.MarshalBinary c = ([b], None).
Proof.
  intros Hb. destruct (FCtrl_unpack_pack c0 b Hb) as [c [Hu [_ [Hr Hm]]]].
  exists c. repeat split; try assumption; apply Hr.
Qed.

Lemma FCtrl_byte_roundtrip_witness :
  exists c,
    FCtrl.UnmarshalBinary (FCtrl.mk false false false false 0) [0x5F] = (c, None)
    /\ 0 <= FCtrl.fOptsLen c <= 15
    /\ FCtrl.MarshalBinary c = ([0x5F], None).
Proof.
  apply (FCtrl_byte_roundtrip (FCtrl.mk false false false false 0) 0x5F). lia.
Defined.

(** ** Encoding and decoding headers *)

Section Headers.

Context {cmds : Commands}.

Lemma MarshalBinary_snd (h : FHDR.t) :
  FHDR.MarshalBinary h = snd (FHDR.MarshalBinary_body h).
Proof.
  unfold FHDR.MarshalBinary, FHDR.call_value.
  destruct (FHDR.MarshalBinary_body h). reflexivity.
Qed.

(** A successful encode, read backwards: the commands were serialized and
    the truncated length passed the check. *)
Lemma MarshalBinary_success (h : FHDR.t) bs :
  FHDR.MarshalBinary h = (bs, None) ->
  FHDR.range_FOpts (FHDR.uplink h) (FHDR.FOpts h) [] = (FHDR.stream h, None)
  /\ uint8 (Z.of_nat (length (FHDR.stream h))) <= 15.
Proof.
  intros Hm. unfold FHDR.stream.
  destruct (FHDR.range_FOpts _ _ _) as [s [err|]] eqn:Hr.
  - rewrite (MarshalBinary_cmd_error h s err Hr) in Hm. discriminate.
  - split; [reflexivity|]. simpl.
    destruct (Z.lt_ge_cases 15 (uint8 (Z.of_nat (length s)))) as [G|G]; [|lia].
    rewrite (MarshalBinary_too_long h s Hr G) in Hm. discriminate.
Qed.

(** X6.  The length boundary of decode: an input of fewer than 7 bytes is
    refused with "at least 7 bytes are expected" and the header is not
    touched; an input of exactly 7 bytes is accepted, sets address, flags
    and counter, and appends no command. *)
Theorem decode_length_boundary (h : FHDR.t) (data : list byte) :
  (length data <= 7)%nat ->
  FHDR.UnmarshalBinary h data
  = if (length data <? 7)%nat
    then (h, errors_New "lorawan: at least 7 bytes are expected")
    else (FHDR.prefixed h data, None).
Proof.
  intros L. destruct (Nat.ltb_spec (length data) 7) as [S|S].
  - apply UnmarshalBinary_short. exact S.
  - rewrite UnmarshalBinary_long by exact S. rewrite scan_view.
    rewrite skipn_all2 by (simpl; lia). reflexivity.
Qed.

(** X7.  The layout of an encoded header: when [MarshalBinary] succeeds its
    output is the four address bytes, one flags byte, the two counter
    bytes, low byte first, and then the serialized command stream; its
    length is 7 plus the stream's. *)
Theorem encode_layout (h : FHDR.t) (bs : list byte) :
  FHDR.MarshalBinary h = (bs, None) ->
  length bs = (7 + length (FHDR.stream h))%nat
  /\ firstn 4 bs = fst (DevAddr.MarshalBinary (FHDR.DevAddr h))
  /\ nth 5 bs 0 = uint8 (FHDR.Fcnt h)
  /\ nth 6 bs 0 = uint8 (Z.shiftr (FHDR.Fcnt h) 8)
  /\ skipn 7 bs = FHDR.stream h.
Proof.
  intros Hm. destruct (MarshalBinary_success h bs Hm) as [Hr G].
  destruct (MarshalBinary_ok h _ Hr G) as [b [_ Hm']].
  rewrite Hm in Hm'. injection Hm' as ->.
  repeat split; reflexivity.
Qed.

Lemma range_FOpts_directed up macs acc :
  FHDR.range_FOpts up (map (fun mac => MACCommand.with_uplink mac up) macs) acc
  = FHDR.range_FOpts up macs acc.
Proof.
  revert acc. induction macs as [|mac macs IH]; intros acc; [reflexivity|].
  simpl. change (MACCommand.with_uplink (MACCommand.with_uplink mac up) up)
    with (MACCommand.with_uplink mac up).
  destruct (MACCommand_MarshalBinary _) as [b [err|]]; [reflexivity|].
  apply IH.
Qed.

(** X8.  Encoding sets the direction of every command from the header: the
    direction a command carries in its own field has no influence on the
    output, which is that of the header whose commands all carry the
    header's direction. *)
Theorem encode_injects_direction (h : FHDR.t) :
  FHDR.MarshalBinary (FHDR.with_FOpts h (FHDR.directed h))
  = FHDR.MarshalBinary h.
Proof.
  rewrite !MarshalBinary_snd. unfold FHDR.MarshalBinary_body, FHDR.directed.
  cbn [FHDR.with_FOpts FHDR.uplink FHDR.FOpts].
  rewrite range_FOpts_directed.
  destruct (FHDR.range_FOpts _ _ _) as [s [err|]]; [reflexivity|].
  cbv zeta. cbn [FHDR.with_FCtrl FHDR.FCtrl FHDR.DevAddr FHDR.Fcnt].
  destruct (15 <? _); [reflexivity|].
  unfold DevAddr.MarshalBinary.
  destruct (FCtrl.MarshalBinary _) as [b [err|]]; reflexivity.
Qed.

(** X9.  Decoding never changes the direction of the header, whether it
    succeeds or fails. *)
Theorem decode_keeps_direction (h : FHDR.t) (data : list byte) :
  FHDR.uplink (fst (FHDR.UnmarshalBinary h data)) = FHDR.uplink h.
Proof.
  destruct (Nat.lt_ge_cases (length data) 7) as [L|L].
  - rewrite UnmarshalBinary_short by exact L. reflexivity.
  - rewrite UnmarshalBinary_long by exact L.
    destruct (scan_frame data (FHDR.prefixed h data) 0) as [g [r [new [_ [_ Hf]]]]].
    rewrite Hf. reflexivity.
Qed.

Lemma pLen_le_4 up c : (FHDR.pLen up c <= 4)%nat.
Proof.
  unfold FHDR.pLen.
  repeat match goal with
    | |- context [if ?b then _ else _] => destruct b
    end; lia.
Qed.

Lemma decodes_length up s mcs :
  FHDR.decodes up s mcs ->
  (length mcs <= length s <= 5 * length mcs)%nat.
Proof.
  induction 1 as [|c p mc rest mcs Hp _ _ IH]; simpl; [lia|].
  rewrite length_app. pose proof (pLen_le_4 up c). lia.
Qed.

(** X10.  Every decoded command takes between one and five bytes of the
    stream: after a successful decode the number [n] of appended commands
    satisfies [n <= len(data[7:]) <= 5 n]. *)
Theorem decode_command_count (h h' : FHDR.t) (data : list byte) :
  FHDR.UnmarshalBinary h data = (h', None) ->
  exists new,
    FHDR.FOpts h' = FHDR.FOpts h ++ new
    /\ (length new <= length (skipn 7 data) <= 5 * length new)%nat.
Proof.
  intros H. destruct (Nat.lt_ge_cases (length data) 7) as [L|L].
  { rewrite UnmarshalBinary_short in H by exact L. discriminate. }
  rewrite UnmarshalBinary_long in H by exact L.
  destruct (scan_complete data (FHDR.prefixed h data) 0) as [new [Hd Hf]].
  { rewrite H. reflexivity. }
  rewrite H in Hf. simpl in Hf. subst h'. exists new.
  split; [reflexivity|]. exact (decodes_length _ _ _ Hd).
Qed.

End Headers.

Lemma decode_length_boundary_witness :
  Raw.decode (Examples.blank true) [0x04; 0x03; 0x02; 0x01; 0x80; 0x05]
  = (Examples.blank true, errors_New "lorawan: at least 7 bytes are expected").
Proof.
  apply (decode_length_boundary (cmds := Raw.commands) (Examples.blank true)
           [0x04; 0x03; 0x02; 0x01; 0x80; 0x05]).
  simpl. lia.
Defined.

Lemma encode_layout_witness :
  skipn 7 (fst (Raw.encode Examples.answers)) = FHDR.stream Examples.answers.
Proof.
  destruct (encode_layout (cmds := Raw.commands) Examples.answers
              (fst (Raw.encode Examples.answers))) as [_ [_ [_ [_ H]]]].
  - reflexivity.
  - exact H.
Defined.

Lemma decode_command_count_witness :
  exists new,
    FHDR.FOpts Examples.reused_decoded = FHDR.FOpts Examples.reused ++ new
    /\ (length new <= length (skipn 7 Examples.one_answer) <= 5 * length new)%nat.
Proof.
  apply (decode_command_count (cmds := Raw.commands)
           Examples.reused Examples.reused_decoded Examples.one_answer).
  reflexivity.
Defined.

(** ** Errors of the command codec, and what the scan depends on *)

Section Streams.

Context {cmds : Commands}.

Lemma range_FOpts_error up pre mac post b err :
  Forall (fun m => snd (MACCommand_MarshalBinary (MACCommand.with_uplink m up))
                   = None) pre ->
  MACCommand_MarshalBinary (MACCommand.with_uplink mac up) = (b, Some err) ->
  forall acc, FHDR.range_FOpts up (pre ++ mac :: post) acc = ([], Some err).
Proof.
  intros Hpre Hmac. induction Hpre as [|m pre Hm _ IH]; intros acc; simpl.
  - rewrite Hmac. reflexivity.
  - destruct (MACCommand_MarshalBinary (MACCommand.with_uplink m up))
      as [b' [e|]]; [discriminate|]. apply IH.
Qed.

(** X11.  Encode stops at the first command the command encoder refuses:
    when the commands before it serialize and it fails with [err],
    [MarshalBinary] returns [err] and no bytes, whatever follows. *)
Theorem encode_passes_command_error (h : FHDR.t) pre mac post b err :
  FHDR.FOpts h = pre ++ mac :: post ->
  Forall (fun m => snd (MACCommand_MarshalBinary
                          (MACCommand.with_uplink m (FHDR.uplink h))) = None)
         pre ->
  MACCommand_MarshalBinary (MACCommand.with_uplink mac (FHDR.uplink h))
  = (b, Some err) ->
  FHDR.MarshalBinary h = ([], Some err).
Proof.
  intros Ho Hpre Hmac.
  apply (MarshalBinary_cmd_error h []). rewrite Ho.
  apply (range_FOpts_error _ _ _ _ b); assumption.
Qed.

(** The command decoder refusing a slice stops the scan with its error; the
    commands before it stay appended. *)
Lemma scan_rejected up good mcs :
  FHDR.decodes up good mcs ->
  forall data h i c p rest mc err,
    FHDR.uplink h = up ->
    skipn (7 + i) data = good ++ c :: p ++ rest ->
    length p = FHDR.pLen up c ->
    MACCommand_UnmarshalBinary (MACCommand.mk up zero) (c :: p) = (mc, Some err) ->
    FHDR.scan data h i = (FHDR.with_FOpts h (FHDR.FOpts h ++ mcs), Some err).
Proof.
  induction 1 as [|c0 p0 mc0 rest0 mcs Hp Hmc Hrest IH];
    intros data h i c p rest mc err Hup E Lp Hrej.
  - rewrite scan_view, E. simpl app. cbv zeta. rewrite Hup, <- Lp.
    destruct (Nat.ltb_spec (length (p ++ rest)) (length p)) as [L|_].
    { rewrite length_app in L. lia. }
    rewrite firstn_app, firstn_all, Nat.sub_diag. simpl firstn.
    rewrite app_nil_r, Hrej, with_FOpts_same. reflexivity.
  - rewrite scan_view, E. simpl app. cbv zeta. rewrite Hup, <- Hp.
    rewrite <- app_assoc.
    destruct (Nat.ltb_spec (length (p0 ++ rest0 ++ c :: p ++ rest)) (length p0))
      as [L'|_].
    { rewrite length_app in L'. lia. }
    rewrite firstn_app, firstn_all, Nat.sub_diag. simpl firstn.
    rewrite app_nil_r, Hmc.
    rewrite (IH data _ (i + length p0 + 1)%nat c p rest mc err).
    + rewrite with_FOpts_snoc. reflexivity.
    + exact Hup.
    + simpl in E. rewrite <- app_assoc in E.
      rewrite (scan_next _ _ _ _ _ E), skipn_app, skipn_all, Nat.sub_diag.
      reflexivity.
    + exact Lp.
    + exact Hrej.
Qed.

(** X12.  Decode stops at the first slice the command decoder refuses:
    after a well-formed part of the stream, an identifier with its full
    payload that the command decoder rejects with [err] makes
    [UnmarshalBinary] return [err]; the prefix fields are set and the
    commands of the well-formed part are appended. *)
Theorem decode_passes_command_error (h : FHDR.t) data good mcs c p rest mc err :
  (7 <= length data)%nat ->
  skipn 7 data = good ++ c :: p ++ rest ->
  FHDR.decodes (FHDR.uplink h) good mcs ->
  length p = FHDR.pLen (FHDR.uplink h) c ->
  MACCommand_UnmarshalBinary (MACCommand.mk (FHDR.uplink h) zero) (c :: p)
  = (mc, Some err) ->
  FHDR.UnmarshalBinary h data
  = (FHDR.with_FOpts (FHDR.prefixed h data) (FHDR.FOpts h ++ mcs), Some err).
Proof.
  intros L Hs Hd Lp Hrej. rewrite UnmarshalBinary_long by exact L.
  rewrite (scan_rejected _ _ _ Hd _ _ 0%nat c p rest mc err); auto.
Qed.

(** X13.  The scan does not look at the prefix: two inputs that carry the
    same bytes after their 7-byte prefixes, decoded under the same
    direction, give the same error (or none) and append the same commands.
    In particular the options length in the flags byte is never compared
    with the stream. *)
Theorem decode_ignores_prefix (h h' : FHDR.t) (pre pre' s : list byte) :
  length pre = 7%nat -> length pre' = 7%nat ->
  FHDR.uplink h = FHDR.uplink h' ->
  exists new e,
    snd (FHDR.UnmarshalBinary h (pre ++ s)) = e
    /\ snd (FHDR.UnmarshalBinary h' (pre' ++ s)) = e
    /\ FHDR.FOpts (fst (FHDR.UnmarshalBinary h (pre ++ s))) = FHDR.FOpts h ++ new
    /\ FHDR.FOpts (fst (FHDR.UnmarshalBinary h' (pre' ++ s))) = FHDR.FOpts h' ++ new.
Proof.
  intros L L' Hup.
  rewrite !UnmarshalBinary_long by (rewrite length_app; lia).
  destruct (scan_depends (pre ++ s) (FHDR.prefixed h (pre ++ s)) 0
              (pre' ++ s) (FHDR.prefixed h' (pre' ++ s)) 0%nat)
    as [new [e [H1 H2]]].
  - change (7 + 0)%nat with 7%nat. rewrite !skipn_app, L, L'.
    rewrite (skipn_all2 pre), (skipn_all2 pre') by lia. reflexivity.
  - exact Hup.
  - exists new, e. rewrite H1, H2. repeat split; reflexivity.
Qed.

End Streams.

Lemma encode_passes_command_error_witness :
  FHDR.MarshalBinary Picky.refused = ([], Picky.unsupported).
Proof.
  apply (encode_passes_command_error (cmds := Picky.commands) Picky.refused
           [Raw.cmd true 2 []] (Raw.cmd true 0xFF []) [Raw.cmd true 6 [1; 2]] []).
  - reflexivity.
  - repeat constructor.
  - reflexivity.
Defined.

Lemma decode_passes_command_error_witness :
  snd (FHDR.UnmarshalBinary
         (Picky.header 0 (FCtrl.mk false false false false 0) 0 [] true)
         Picky.refused_bytes)
  = Picky.unsupported.
Proof.
  rewrite (decode_passes_command_error (cmds := Picky.commands)
             (Picky.header 0 (FCtrl.mk false false false false 0) 0 [] true)
             Picky.refused_bytes [2] [Raw.cmd true 2 []] 0xFF [] [2]
             (MACCommand.mk true (Raw.mk 0 [])) "lorawan: unsupported command"%string).
  - reflexivity.
  - simpl. lia.
  - reflexivity.
  - eapply (FHDR.decodes_cons (cmds := Picky.commands) _ 2 []);
      [reflexivity | reflexivity | constructor].
  - reflexivity.
  - reflexivity.
Defined.

Lemma decode_ignores_prefix_witness :
  exists new e,
    snd (Raw.decode (Examples.blank false)
           ([0x04; 0x03; 0x02; 0x01; 0x80; 0x05; 0x00] ++ [0x02; 7; 9])) = e
    /\ snd (Raw.decode Examples.reused
              ([0; 0; 0; 0; 0x0F; 0; 0] ++ [0x02; 7; 9])) = e
    /\ FHDR.FOpts (fst (Raw.decode (Examples.blank false)
                          ([0x04; 0x03; 0x02; 0x01; 0x80; 0x05; 0x00] ++ [0x02; 7; 9])))
       = FHDR.FOpts (Examples.blank false) ++ new
    /\ FHDR.FOpts (fst (Raw.decode Examples.reused
                          ([0; 0; 0; 0; 0x0F; 0; 0] ++ [0x02; 7; 9])))
       = FHDR.FOpts Examples.reused ++ new.
Proof.
  apply (decode_ignores_prefix (cmds := Raw.commands)
           (Examples.blank false) Examples.reused); reflexivity.
Defined.

(** ** Round trips from the bytes, and composition *)

Section Composition.

Context {cmds : Commands}.

Lemma PutUint16_value b0 b1 :
  0 <= b0 < 256 -> 0 <= b1 < 256 ->
  LittleEndian.PutUint16 [0; 0] (b0 + 2 ^ 8 * b1) = [b0; b1].
Proof.
  intros H0 H1. cbv [LittleEndian.PutUint16 store].
  unfold uint8. rewrite !Z.shiftr_div_pow2 by lia.
  change (2 ^ 8) with 256.
  repeat f_equal; Z.div_mod_to_equations; lia.
Qed.

Lemma with_fOptsLen_same c : FCtrl.with_fOptsLen c (FCtrl.fOptsLen c) = c.
Proof. destruct c. reflexivity. Qed.

(** Commands decoded from a stream serialize to that stream again, when
    the command encoder inverts the command decoder. *)
Lemma decodes_reencode up s mcs :
  (forall c p mc,
      MACCommand_UnmarshalBinary (MACCommand.mk up zero) (c :: p) = (mc, None) ->
      MACCommand_MarshalBinary (MACCommand.with_uplink mc up) = (c :: p, None)) ->
  FHDR.decodes up s mcs ->
  FHDR.range_FOpts up mcs [] = (s, None).
Proof.
  intros Hinv. induction 1 as [|c p mc rest mcs Hp Hmc _ IH]; [reflexivity|].
  simpl. rewrite (Hinv c p mc Hmc), range_FOpts_acc, IH. reflexivity.
Qed.

(** X14.  Round trip from the bytes: let an input of bytes decode without
    error into a header that held no commands, let the options length in
    its flags byte be the length of its command stream, and let the command
    encoder invert the command decoder.  Then encoding the decoded header
    gives the input back. *)
Theorem decode_encode_roundtrip (h h' : FHDR.t) (data : list byte) :
  (7 <= length data)%nat ->
  Forall (fun b => 0 <= b < 256) (firstn 7 data) ->
  FCtrl.optionsLength (nth 4 data 0) = Z.of_nat (length (skipn 7 data)) ->
  FHDR.FOpts h = [] ->
  (forall c p mc,
      MACCommand_UnmarshalBinary (MACCommand.mk (FHDR.uplink h) zero) (c :: p)
      = (mc, None) ->
      MACCommand_MarshalBinary (MACCommand.with_uplink mc (FHDR.uplink h))
      = (c :: p, None)) ->
  FHDR.UnmarshalBinary h data = (h', None) ->
  FHDR.MarshalBinary h' = (data, None).
Proof.
  intros L Hb Hlen Hnil Hinv Hdec.
  rewrite UnmarshalBinary_long in Hdec by exact L.
  destruct (scan_complete data (FHDR.prefixed h data) 0) as [new [Hd Hf]].
  { rewrite Hdec. reflexivity. }
  rewrite Hdec in Hf. cbn [fst] in Hf. subst h'.
  destruct data as [|a0 [|a1 [|a2 [|a3 [|b [|f0 [|f1 s]]]]]]];
    simpl in L; try lia.
  cbn [firstn] in Hb.
  inversion_clear Hb as [|? ? B0 Hb']. inversion_clear Hb' as [|? ? B1 Hb].
  inversion_clear Hb as [|? ? B2 Hb']. inversion_clear Hb' as [|? ? B3 Hb].
  inversion_clear Hb as [|? ? B4 Hb']. inversion_clear Hb' as [|? ? B5 Hb].
  inversion_clear Hb as [|? ? B6 _].
  cbn [nth skipn Nat.add] in Hlen, Hd.
  cbn [FHDR.uplink FHDR.prefixed] in Hd.
  pose proof (decodes_reencode _ _ _ Hinv Hd) as Hr.
  destruct (FCtrl_unpack_pack (FHDR.FCtrl h) b B4) as [c [Hu [Hn [Hrange Hm]]]].
  rewrite Hlen in Hn.
  assert (Hsmall : (length s <= 15)%nat) by lia.
  match goal with |- FHDR.MarshalBinary ?x = _ => set (h' := x) end.
  assert (Hr' : FHDR.range_FOpts (FHDR.uplink h') (FHDR.FOpts h') [] = (s, None)).
  { subst h'. cbn [FHDR.with_FOpts FHDR.prefixed FHDR.uplink FHDR.FOpts].
    rewrite Hnil. exact Hr. }
  destruct (MarshalBinary_ok h' s Hr') as [b' [Hb' Hm']].
  { rewrite uint8_small by lia. lia. }
  rewrite Hm'. subst h'.
  cbn [FHDR.with_FOpts FHDR.prefixed FHDR.FCtrl FHDR.DevAddr FHDR.Fcnt
       slice skipn firstn Nat.sub] in Hb' |- *.
  rewrite Hu in Hb'. cbn [fst] in Hb'.
  rewrite uint8_small, <- Hn, with_fOptsLen_same, Hm in Hb' by lia.
  injection Hb' as <-.
  rewrite Uint32_value, Uint16_value by assumption.
  set (v := a0 + 2 ^ 8 * a1 + 2 ^ 16 * a2 + 2 ^ 24 * a3).
  set (w := f0 + 2 ^ 8 * f1).
  assert (P32 : [uint8 v; uint8 (Z.shiftr v 8); uint8 (Z.shiftr v 16);
                 uint8 (Z.shiftr v 24)] = [a0; a1; a2; a3])
    by exact (PutUint32_value a0 a1 a2 a3 B0 B1 B2 B3).
  assert (P16 : [uint8 w; uint8 (Z.shiftr w 8)] = [f0; f1])
    by exact (PutUint16_value f0 f1 B5 B6).
  injection P32 as -> -> -> ->. injection P16 as -> ->.
  reflexivity.
Qed.

(** X15.  The prefix survives whatever the commands are: when a header with
    a 32-bit address, a 16-bit counter and a stream shorter than 256 bytes
    encodes, decoding the bytes into any header, with or without an error
    from the scan, leaves the address, the counter and the four flags of
    the encoded header, and the stream's length as options length. *)
Theorem prefix_roundtrip_any_commands (h h0 : FHDR.t) (bs : list byte) :
  0 <= FHDR.DevAddr h < 2 ^ 32 ->
  0 <= FHDR.Fcnt h < 2 ^ 16 ->
  (length (FHDR.stream h) < 256)%nat ->
  FHDR.MarshalBinary h = (bs, None) ->
  FHDR.DevAddr (fst (FHDR.UnmarshalBinary h0 bs)) = FHDR.DevAddr h
  /\ FHDR.Fcnt (fst (FHDR.UnmarshalBinary h0 bs)) = FHDR.Fcnt h
  /\ FHDR.FCtrl (fst (FHDR.UnmarshalBinary h0 bs))
     = FCtrl.with_fOptsLen (FHDR.FCtrl h) (Z.of_nat (length (FHDR.stream h))).
Proof.
  intros Ha Hf Hlt Hm.
  destruct (MarshalBinary_success h bs Hm) as [Hr G].
  rewrite uint8_small in G by lia.
  destruct (MarshalBinary_ok h _ Hr) as [b [Hb Hm']].
  { rewrite uint8_small by lia. exact G. }
  rewrite Hm in Hm'. injection Hm' as ->.
  rewrite uint8_small in Hb by lia.
  destruct (FCtrl_pack_unpack
              (FCtrl.with_fOptsLen (FHDR.FCtrl h)
                 (Z.of_nat (length (FHDR.stream h))))
              (FHDR.FCtrl h0)) as [b' [Hb' [Hun _]]].
  { simpl. lia. }
  rewrite Hb in Hb'. injection Hb' as <-.
  rewrite UnmarshalBinary_long by (simpl; lia).
  match goal with
  | |- context [FHDR.scan ?d ?x ?i] =>
      destruct (scan_frame d x i) as [g [r [new [_ [_ Hs]]]]]; rewrite Hs
  end.
  cbn [FHDR.with_FOpts FHDR.prefixed FHDR.DevAddr FHDR.Fcnt FHDR.FCtrl
       slice skipn firstn Nat.sub].
  rewrite Hun, Uint32_bytes, Uint16_bytes by assumption.
  repeat split; reflexivity.
Qed.

Lemma range_FOpts_app up l1 l2 acc :
  FHDR.range_FOpts up (l1 ++ l2) acc =
  match FHDR.range_FOpts up l1 acc with
  | (s, None) => FHDR.range_FOpts up l2 s
  | (_, Some err) => ([], Some err)
  end.
Proof.
  revert acc. induction l1 as [|mac l1 IH]; intros acc; simpl; [reflexivity|].
  destruct (MACCommand_MarshalBinary _) as [b [err|]]; [reflexivity|].
  apply IH.
Qed.

(** X16.  The command stream of a header is the concatenation of the
    streams of its commands: when the commands [l1 ++ l2] all serialize,
    their stream is the stream of [l1] followed by the stream of [l2]. *)
Theorem stream_app (h : FHDR.t) l1 l2 :
  snd (FHDR.range_FOpts (FHDR.uplink h) (l1 ++ l2) []) = None ->
  FHDR.stream (FHDR.with_FOpts h (l1 ++ l2))
  = FHDR.stream (FHDR.with_FOpts h l1) ++ FHDR.stream (FHDR.with_FOpts h l2).
Proof.
  unfold FHDR.stream. cbn [FHDR.with_FOpts FHDR.uplink FHDR.FOpts].
  rewrite range_FOpts_app.
  destruct (FHDR.range_FOpts (FHDR.uplink h) l1 []) as [s1 [e1|]];
    [discriminate|].
  rewrite range_FOpts_acc.
  destruct (FHDR.range_FOpts (FHDR.uplink h) l2 []) as [s2 [e2|]];
    [discriminate|].
  reflexivity.
Qed.

Lemma decodes_app up s1 m1 s2 m2 :
  FHDR.decodes up s1 m1 -> FHDR.decodes up s2 m2 ->
  FHDR.decodes up (s1 ++ s2) (m1 ++ m2).
Proof.
  induction 1 as [|c p mc rest mcs Hp Hmc _ IH]; intros H2; [exact H2|].
  simpl. rewrite <- app_assoc. constructor; auto.
Qed.

(** X17.  Decoding composes: decoding a well-formed stream [s1] and then,
    into the same header, a well-formed stream [s2] behind the same prefix
    gives the header that decoding the stream [s1 ++ s2] at once gives. *)
Theorem decode_concatenation (h : FHDR.t) pre s1 s2 m1 m2 :
  length pre = 7%nat ->
  FHDR.decodes (FHDR.uplink h) s1 m1 ->
  FHDR.decodes (FHDR.uplink h) s2 m2 ->
  FHDR.UnmarshalBinary (fst (FHDR.UnmarshalBinary h (pre ++ s1))) (pre ++ s2)
  = FHDR.UnmarshalBinary h (pre ++ s1 ++ s2).
Proof.
  intros L H1 H2.
  destruct pre as [|a0 [|a1 [|a2 [|a3 [|b [|f0 [|f1 [|x pre]]]]]]]];
    simpl in L; try lia.
  rewrite (UnmarshalBinary_decodes h _ m1) by (simpl; auto; lia).
  rewrite (UnmarshalBinary_decodes h _ (m1 ++ m2))
    by (simpl; auto using decodes_app; lia).
  cbn [fst].
  rewrite (UnmarshalBinary_decodes _ _ m2) by (simpl; auto; lia).
  unfold FHDR.prefixed, FHDR.with_FOpts.
  cbn [FHDR.FOpts FHDR.uplink FHDR.FCtrl FHDR.DevAddr FHDR.Fcnt app
       slice skipn firstn Nat.sub FCtrl.UnmarshalBinary length Nat.eqb negb fst].
  rewrite app_assoc. reflexivity.
Qed.

(** X18.  Bytes outside the table are commands of their own: when no byte
    of the stream is an identifier of the table for the header's direction
    and the command decoder accepts each byte alone, decode succeeds and
    appends one command per byte. *)
Theorem decode_unlisted_bytes (h : FHDR.t) pre s mcs :
  length pre = 7%nat ->
  Forall (fun c => ~ FHDR.in_table (FHDR.uplink h) c) s ->
  Forall2 (fun c mc =>
             MACCommand_UnmarshalBinary
               (MACCommand.mk (FHDR.uplink h) zero) [c] = (mc, None)) s mcs ->
  FHDR.UnmarshalBinary h (pre ++ s)
  = (FHDR.with_FOpts (FHDR.prefixed h (pre ++ s)) (FHDR.FOpts h ++ mcs), None)
  /\ length mcs = length s.
Proof.
  intros L Hout Hacc. split.
  - apply UnmarshalBinary_decodes.
    + rewrite length_app. lia.
    + rewrite skipn_app, skipn_all2, L, Nat.sub_diag by lia. simpl.
      induction Hacc as [|c mc s mcs Hc _ IH]; [constructor|].
      inversion_clear Hout as [|? ? Hn Hout'].
      apply (FHDR.decodes_cons _ c [] mc s mcs).
      * rewrite (pLen_outside_table _ _ Hn). reflexivity.
      * exact Hc.
      * apply IH. exact Hout'.
  - symmetry. exact (Forall2_length Hacc).
Qed.

End Composition.

Lemma decode_encode_roundtrip_witness :
  Raw.encode
    (Raw.header 0x01020304 (FCtrl.mk true false false false 3) 5
       [Raw.cmd false 2 [7; 9]] false)
  = ([0x04; 0x03; 0x02; 0x01; 0x83; 0x05; 0x00; 0x02; 7; 9], None).
Proof.
  apply (decode_encode_roundtrip (cmds := Raw.commands) (Examples.blank false)).
  - simpl. lia.
  - simpl. repeat constructor; lia.
  - reflexivity.
  - reflexivity.
  - intros c p mc H. simpl in H. injection H as <-. reflexivity.
  - reflexivity.
Defined.

Lemma prefix_roundtrip_any_commands_witness :
  FHDR.DevAddr (fst (Raw.decode (Examples.blank false) Examples.unlisted_bytes))
  = 0x01020304
  /\ snd (Raw.decode (Examples.blank false) Examples.unlisted_bytes) <> None.
Proof.
  destruct (prefix_roundtrip_any_commands (cmds := Raw.commands)
              Examples.unlisted (Examples.blank false) Examples.unlisted_bytes)
    as [Ha _].
  - simpl. lia.
  - simpl. lia.
  - vm_compute. lia.
  - reflexivity.
  - split; [exact Ha|discriminate].
Defined.

Lemma stream_app_witness :
  FHDR.stream (FHDR.with_FOpts (Examples.blank false)
                 ([Raw.cmd false 2 [7; 9]] ++ [Raw.cmd false 6 []]))
  = FHDR.stream (FHDR.with_FOpts (Examples.blank false) [Raw.cmd false 2 [7; 9]])
    ++ FHDR.stream (FHDR.with_FOpts (Examples.blank false) [Raw.cmd false 6 []]).
Proof.
  apply (stream_app (cmds := Raw.commands) (Examples.blank false)).
  reflexivity.
Defined.

Lemma decode_concatenation_witness :
  Raw.decode
    (fst (Raw.decode (Examples.blank false)
            ([0x04; 0x03; 0x02; 0x01; 0x80; 0x05; 0x00] ++ [0x02; 7; 9])))
    ([0x04; 0x03; 0x02; 0x01; 0x80; 0x05; 0x00] ++ [0x06])
  = Raw.decode (Examples.blank false)
      ([0x04; 0x03; 0x02; 0x01; 0x80; 0x05; 0x00] ++ [0x02; 7; 9] ++ [0x06]).
Proof.
  apply (decode_concatenation (cmds := Raw.commands) (Examples.blank false)
           [0x04; 0x03; 0x02; 0x01; 0x80; 0x05; 0x00] [0x02; 7; 9] [0x06]
           [Raw.cmd false 2 [7; 9]] [Raw.cmd false 6 []]).
  - reflexivity.
  - chunk 2 [7; 9]. constructor.
  - chunk 6 (@nil byte). constructor.
Defined.

Lemma decode_unlisted_bytes_witness :
  FHDR.FOpts (fst (Raw.decode (Examples.blank false)
                     ([0x04; 0x03; 0x02; 0x01; 0x80; 0x05; 0x00] ++ [0x80; 0x81])))
  = [Raw.cmd false 0x80 []; Raw.cmd false 0x81 []].
Proof.
  destruct (decode_unlisted_bytes (cmds := Raw.commands) (Examples.blank false)
              [0x04; 0x03; 0x02; 0x01; 0x80; 0x05; 0x00] [0x80; 0x81]
              [Raw.cmd false 0x80 []; Raw.cmd false 0x81 []]) as [H _].
  - reflexivity.
  - repeat constructor; intros [n H]; simpl in H;
      repeat (destruct H as [H|H]; [discriminate|]); exact H.
  - repeat constructor.
  - exact (f_equal (fun r => FHDR.FOpts (fst r)) H).
Defined.

(** ** When encode and decode succeed, and how they fail *)

Section Outcomes.

Context {cmds : Commands}.



Lemma scan_error_kinds data h i :
  forall e,
    snd (FHDR.scan data h i) = Some e ->
    Some e = errors_New "lorawan: not enough remaining bytes"
    \/ exists c p mc,
         length p = FHDR.pLen (FHDR.uplink h) c
         /\ MACCommand_UnmarshalBinary
              (MACCommand.mk (FHDR.uplink h) zero) (c :: p) = (mc, Some e).
Proof.
  revert data h i. apply (scan_remaining_ind (fun data h i =>
    forall e,
      snd (FHDR.scan data h i) = Some e ->
      Some e = errors_New "lorawan: not enough remaining bytes"
      \/ exists c p mc,
           length p = FHDR.pLen (FHDR.uplink h) c
           /\ MACCommand_UnmarshalBinary
                (MACCommand.mk (FHDR.uplink h) zero) (c :: p) = (mc, Some e))).
  intros data h i IH e. rewrite scan_view.
  destruct (skipn (7 + i) data) as [|c tl] eqn:E; [discriminate|].
  cbv zeta. set (p := FHDR.pLen (FHDR.uplink h) c).
  destruct (Nat.ltb_spec (length tl) p) as [Lt|Lp].
  { simpl. intros H. left. symmetry. exact H. }
  destruct (MACCommand_UnmarshalBinary _ _) as [mc [err|]] eqn:Hmc.
  - simpl. intros H. injection H as ->. right.
    exists c, (firstn p tl), mc. split; [|exact Hmc].
    rewrite firstn_length_le by lia. reflexivity.
  - intros H.
    apply (IH (FHDR.with_FOpts h (FHDR.FOpts h ++ [mc])) (i + p + 1)%nat);
      [|exact H].
    rewrite (scan_next _ _ _ _ _ E), length_skipn. simpl. lia.
Qed.

(** X21.  The errors of decode: "at least 7 bytes are expected" on a short
    input, and on a longer one either "not enough remaining bytes" or the
    error of the command decoder on an identifier with its full payload.
    The length errors of the address and of the flags byte never come out
    of it. *)
Theorem decode_error_kinds (h h' : FHDR.t) (data : list byte) (e : error) :
  FHDR.UnmarshalBinary h data = (h', Some e) ->
  ((length data < 7)%nat
   /\ Some e = errors_New "lorawan: at least 7 bytes are expected")
  \/ ((7 <= length data)%nat
      /\ (Some e = errors_New "lorawan: not enough remaining bytes"
          \/ exists c p mc,
               length p = FHDR.pLen (FHDR.uplink h) c
               /\ MACCommand_UnmarshalBinary
                    (MACCommand.mk (FHDR.uplink h) zero) (c :: p)
                  = (mc, Some e))).
Proof.
  intros H. destruct (Nat.lt_ge_cases (length data) 7) as [L|L].
  - left. rewrite UnmarshalBinary_short in H by exact L.
    injection H as _ <-. split; [exact L|reflexivity].
  - right. split; [exact L|].
    rewrite UnmarshalBinary_long in H by exact L.
    apply (scan_error_kinds data (FHDR.prefixed h data) 0 e).
    rewrite H. reflexivity.
Qed.

(** X22.  When decode succeeds: exactly when the input has at least 7 bytes
    and the bytes after the prefix are a well-formed command stream for the
    header's direction. *)
Theorem decode_success_iff (h : FHDR.t) (data : list byte) :
  snd (FHDR.UnmarshalBinary h data) = None
  <-> (7 <= length data)%nat
      /\ exists mcs, FHDR.decodes (FHDR.uplink h) (skipn 7 data) mcs.
Proof.
  split.
  - intros H. destruct (Nat.lt_ge_cases (length data) 7) as [L|L].
    { rewrite UnmarshalBinary_short in H by exact L. discriminate. }
    split; [exact L|].
    rewrite UnmarshalBinary_long in H by exact L.
    destruct (scan_complete data (FHDR.prefixed h data) 0 H) as [mcs [Hd _]].
    exists mcs. exact Hd.
  - intros [L [mcs Hd]].
    rewrite (UnmarshalBinary_decodes h data mcs L Hd). reflexivity.
Qed.

End Outcomes.


Lemma decode_error_kinds_witness :
  (7 <= length Examples.cut_short)%nat
  /\ snd (Raw.decode (Examples.blank false) Examples.cut_short)
     = errors_New "lorawan: not enough remaining bytes".
Proof.
  destruct (decode_error_kinds (cmds := Raw.commands)
              (Examples.blank false) Examples.cut_short_decoded
              Examples.cut_short "lorawan: not enough remaining bytes"%string)
    as [[L _]|[L _]].
  - reflexivity.
  - simpl in L. lia.
  - split; [exact L|reflexivity].
Defined.
